(** * The prediction request pipeline of the diabetes-prediction backend

    A shallow embedding of
      - [backend/middleware/validation.js]  (the field validator) and
      - [backend/routes/prediction.js]      (the single and the batch route)
    together with the fragment of JavaScript semantics these two files lean
    on: IEEE-754 numbers, the numeric coercion of JSON values, property
    reads, exceptions and the few effects of a request (clock, random
    source, endpoint invocation). *)

From Stdlib Require Import ZArith String Ascii List Bool Lia.
From Stdlib Require Import Floats.SpecFloat.
From stdpp Require Import gmap strings list fin_maps pretty.

Set Warnings "-register-all".
Open Scope Z_scope.

(** ** JavaScript numbers

    A Number is an IEEE-754 binary64 value; [spec_float] at precision 53 and
    maximal exponent 1024 is exactly that, NaN, both infinities and both
    zeros included. *)

Module Num.

Definition prec : Z := 53.
Definition emax : Z := 1024.

Definition NaN : spec_float := S754_nan.
Definition Infinity (neg : bool) : spec_float := S754_infinity neg.

(** The Number denoted by an integer literal. *)
Definition of_Z (z : Z) : spec_float := binary_normalize prec emax z 0 false.

Definition digits10 (m : positive) : Z := Z.log2 (Z.pos m) / 3 + 1.

(** The Number nearest to [m * 10^e] (ties to even) with sign [neg]; what a
    decimal literal with digits [m] and decimal exponent [e] denotes.  The two
    early exits keep the powers of ten small; they are taken only far outside
    the binary64 range. *)
Definition of_decimal (neg : bool) (m : N) (e : Z) : spec_float :=
  match m with
  | N0 => S754_zero neg
  | Npos p =>
      if 400 <? e then S754_infinity neg
      else if e + digits10 p <? -400 then S754_zero neg
      else if 0 <=? e then
        (if neg then SFopp else id)
          (binary_normalize prec emax (Z.pos p * 10 ^ e) 0 false)
      else
        SFdiv prec emax (S754_finite neg p 0)
              (S754_finite false (Z.to_pos (10 ^ (- e))) 0)
  end.

Definition is_nan (x : spec_float) : bool :=
  match x with S754_nan => true | _ => false end.

(** [x < y], [x <= y] and [x == y] on Numbers: false as soon as one side is NaN. *)
Definition ltb (x y : spec_float) : bool := SFltb x y.
Definition leb (x y : spec_float) : bool := SFleb x y.
Definition eqb (x y : spec_float) : bool := SFeqb x y.

(** SameValueZero, the equality of [Array.prototype.includes]: NaN equals
    NaN, and the two zeros are equal. *)
Definition same_value_zero (x y : spec_float) : bool :=
  match x, y with
  | S754_nan, S754_nan => true
  | _, _ => SFeqb x y
  end.

(** [x - y] for two integral clock readings. *)
Definition of_elapsed (later earlier : Z) : spec_float := of_Z (later - earlier).

End Num.

(** ** Strings to numbers

    [StringToNumber] of the language: surrounding white space is dropped, the
    empty string is [+0], then a signed decimal literal, [Infinity], or an
    unsigned hexadecimal, octal or binary integer; anything else is NaN.
    Strings are sequences of code units below 256, so the white space that
    can occur is TAB, LF, VT, FF, CR, SP and NBSP. *)

Module StrNum.

Definition is_space (c : ascii) : bool :=
  let n := nat_of_ascii c in
  ((9 <=? n) && (n <=? 13))%nat || (n =? 32)%nat || (n =? 160)%nat.

Fixpoint drop_space (s : string) : string :=
  match s with
  | String c r => if is_space c then drop_space r else s
  | EmptyString => EmptyString
  end.

Fixpoint rev_onto (s acc : string) : string :=
  match s with
  | EmptyString => acc
  | String c r => rev_onto r (String c acc)
  end.

Definition trim (s : string) : string :=
  rev_onto (drop_space (rev_onto (drop_space s) EmptyString)) EmptyString.

Definition digit_value (base : N) (c : ascii) : option N :=
  (let n := N_of_ascii c in
   let d :=
     if (48 <=? n) && (n <=? 57) then Some (n - 48)
     else if (97 <=? n) && (n <=? 102) then Some (n - 87)
     else if (65 <=? n) && (n <=? 70) then Some (n - 55)
     else None in
   match d with
   | Some v => if v <? base then Some v else None
   | None => None
   end)%N.

(** Reads the longest run of digits: the value accumulated, how many digits
    were read, and what is left. *)
Fixpoint read_digits (base : N) (s : string) (acc : N) (count : nat)
  : N * nat * string :=
  match s with
  | String c r =>
      match digit_value base c with
      | Some d => read_digits base r (acc * base + d)%N (S count)
      | None => (acc, count, s)
      end
  | EmptyString => (acc, count, s)
  end.

Definition is_char (c : ascii) (code : nat) : bool :=
  (nat_of_ascii c =? code)%nat.

(** An optional exponent part [e±ddd] that must reach the end of the string. *)
Definition read_exponent (s : string) : option Z :=
  match s with
  | EmptyString => Some 0
  | String c r =>
      if is_char c 101 || is_char c 69 then
        let '(neg, r') :=
          match r with
          | String c' r'' =>
              if is_char c' 45 then (true, r'')
              else if is_char c' 43 then (false, r'')
              else (false, r)
          | EmptyString => (false, r)
          end in
        match read_digits 10 r' 0%N 0%nat with
        | (_, O, _) => None
        | (v, _, EmptyString) => Some (if neg then - Z.of_N v else Z.of_N v)
        | _ => None
        end
      else None
  end.

(** An unsigned decimal literal: [ddd], [ddd.], [ddd.ddd] or [.ddd], each
    with an optional exponent; or [Infinity]. *)
Definition unsigned_decimal (neg : bool) (s : string) : spec_float :=
  if String.eqb s "Infinity" then Num.Infinity neg
  else
    let '(int_value, int_count, rest) := read_digits 10 s 0%N 0%nat in
    let '(mantissa, frac_count, rest') :=
      match rest with
      | String c r =>
          if is_char c 46 then read_digits 10 r int_value 0%nat
          else (int_value, 0%nat, rest)
      | EmptyString => (int_value, 0%nat, rest)
      end in
    match (int_count + frac_count)%nat with
    | O => Num.NaN
    | _ =>
        match read_exponent rest' with
        | Some e => Num.of_decimal neg mantissa (e - Z.of_nat frac_count)
        | None => Num.NaN
        end
    end.

Definition radix_integer (base : N) (s : string) : spec_float :=
  match read_digits base s 0%N 0%nat with
  | (_, O, _) => Num.NaN
  | (v, _, EmptyString) => Num.of_Z (Z.of_N v)
  | _ => Num.NaN
  end.

Definition StringToNumber (s : string) : spec_float :=
  match trim s with
  | EmptyString => S754_zero false
  | String c r as t =>
      if is_char c 45 then unsigned_decimal true r
      else if is_char c 43 then unsigned_decimal false r
      else
        match t with
        | String _ (String x r') =>
            if is_char c 48 && (is_char x 120 || is_char x 88) then radix_integer 16 r'
            else if is_char c 48 && (is_char x 111 || is_char x 79) then radix_integer 8 r'
            else if is_char c 48 && (is_char x 98 || is_char x 66) then radix_integer 2 r'
            else unsigned_decimal false t
        | _ => unsigned_decimal false t
        end
  end.

End StrNum.

Open Scope string_scope.

(** ** Values, exceptions and the numeric coercion

    Request bodies and endpoint results are JSON: the values below.  An
    object is the finite map of its own properties. *)

Inductive JSValue : Type :=
  | VUndefined
  | VNull
  | VBool (b : bool)
  | VNum (x : spec_float)
  | VStr (s : string)
  | VArr (items : list JSValue)
  | VObj (props : gmap string JSValue).

(** A thrown [Error]: its [name], its [code] (set by the AWS SDK on service
    failures, absent on the language's own errors) and its [message]. *)
Record JSError : Type := mkError {
  name : string;
  code : option string;
  message : string
}.

Inductive result (A : Type) : Type :=
  | Ok (a : A)
  | Throw (e : JSError).
Arguments Ok {A} a.
Arguments Throw {A} e.

Definition rbind {A B : Type} (m : result A) (k : A -> result B) : result B :=
  match m with
  | Ok a => k a
  | Throw e => Throw e
  end.

Declare Scope result_scope.
Delimit Scope result_scope with R.
Notation "x <- m ;; k" := (rbind m (fun x => k))
  (at level 100, m at next level, right associativity) : result_scope.

Definition TypeError (msg : string) : JSError := mkError "TypeError" None msg.
Definition SyntaxError (msg : string) : JSError := mkError "SyntaxError" None msg.

Definition num (z : Z) : JSValue := VNum (Num.of_Z z).
Definition str_array (l : list string) : JSValue := VArr (map VStr l).

Definition has_own (props : gmap string JSValue) (key : string) : bool :=
  match props !! key with Some _ => true | None => false end.

(** [ToString v] completes: a JSON object has no callable property of its
    own, so one that carries its own [toString] key shadows the inherited
    method and cannot be converted to a primitive; an array joins the
    strings of its elements. *)
Fixpoint stringifiable (v : JSValue) : bool :=
  match v with
  | VObj props => negb (has_own props "toString")
  | VArr items => forallb stringifiable items
  | _ => true
  end.

Definition not_primitive : JSError :=
  TypeError "Cannot convert object to primitive value".

(** [ToNumber], the coercion behind [Number(v)], [isNaN(v)] and [v < n].
    Objects and arrays convert through their string: a plain object reads
    [[object Object]] (NaN); an array reads as its elements joined by
    commas, so the empty array is [+0], two or more elements are NaN, and a
    single element reads as that element's string ([null] and [undefined] as
    the empty string; a Number prints to a string that reads back as itself,
    [-0] printing as [0]). *)
Fixpoint ToNumber (v : JSValue) : result spec_float :=
  match v with
  | VUndefined => Ok Num.NaN
  | VNull => Ok (S754_zero false)
  | VBool b => Ok (if b then Num.of_Z 1 else S754_zero false)
  | VNum x => Ok x
  | VStr s => Ok (StrNum.StringToNumber s)
  | VObj props =>
      if has_own props "toString" then Throw not_primitive else Ok Num.NaN
  | VArr items =>
      if forallb stringifiable items then
        match items with
        | [] => Ok (S754_zero false)
        | [e] =>
            match e with
            | VUndefined | VNull => Ok (S754_zero false)
            | VBool _ | VObj _ => Ok Num.NaN
            | VNum (S754_zero _) => Ok (S754_zero false)
            | VNum x => Ok x
            | VStr s => Ok (StrNum.StringToNumber s)
            | VArr _ => ToNumber e
            end
        | _ => Ok Num.NaN
        end
      else Throw not_primitive
  end.

Definition Number (v : JSValue) : result JSValue :=
  (n <- ToNumber v ;; Ok (VNum n))%R.

Definition isNaN (v : JSValue) : result bool :=
  (n <- ToNumber v ;; Ok (Num.is_nan n))%R.

(** [v < c] and [v > c] against a Number literal [c]. *)
Definition lt (v : JSValue) (c : Z) : result bool :=
  (n <- ToNumber v ;; Ok (Num.ltb n (Num.of_Z c)))%R.
Definition gt (v : JSValue) (c : Z) : result bool :=
  (n <- ToNumber v ;; Ok (Num.ltb (Num.of_Z c) n))%R.

(** [[0, 1].includes(x)] and the like. *)
Definition includes (l : list Z) (x : spec_float) : bool :=
  existsb (fun c => Num.same_value_zero (Num.of_Z c) x) l.

(** [o[key]] for the keys this program reads (the ten field names,
    [patients], [risk_level], [probability], none of them inherited, an
    index or [length]): a read from [undefined] or [null] throws, a missing
    property is [undefined]. *)
Definition getProp (o : JSValue) (key : string) : result JSValue :=
  match o with
  | VUndefined =>
      Throw (TypeError ("Cannot read properties of undefined (reading '" +:+ key +:+ "')"))
  | VNull =>
      Throw (TypeError ("Cannot read properties of null (reading '" +:+ key +:+ "')"))
  | VObj props => Ok (default VUndefined (props !! key))
  | _ => Ok VUndefined
  end.

(** [v === s] for a string literal [s]. *)
Definition strict_eq_str (v : JSValue) (s : string) : bool :=
  match v with VStr s' => String.eqb s' s | _ => false end.

Fixpoint chars (s : string) : list JSValue :=
  match s with
  | EmptyString => []
  | String c r => VStr (String c EmptyString) :: chars r
  end.

Definition indexed (l : list JSValue) : gmap string JSValue :=
  list_to_map (imap (fun i v => (pretty i, v)) l).

(** The own enumerable properties that [{...v}] copies. *)
Definition spread (v : JSValue) : gmap string JSValue :=
  match v with
  | VObj props => props
  | VArr items => indexed items
  | VStr s => indexed (chars s)
  | _ => ∅
  end.

(** ** The world of a request

    [Env] is what a request cannot change: the process environment, the
    clock, the random source and the remote endpoint, each as the sequence
    of answers it gives.  [State] counts how far each sequence has been
    consumed and logs the payloads sent to the endpoint. *)

Inductive Body : Type :=
  | JsonText (v : JSValue)          (* the bytes are the JSON text of [v] *)
  | BadText (syntax_error : string) (* the bytes are no JSON text *).

Inductive Reply : Type :=
  | Resolves (body : Body)
  | Rejects (error : JSError).

Record Env : Type := mkEnv {
  NODE_ENV : option string;          (* process.env.NODE_ENV *)
  endpointName : JSValue;            (* process.env.SAGEMAKER_ENDPOINT *)
  clock : nat -> Z;                  (* the n-th reading of the clock, in ms *)
  toISOString : Z -> string;
  random : nat -> string;            (* the n-th Math.random().toString(36).substr(2, 9) *)
  endpoint : nat -> JSValue -> Reply (* the answer of the n-th invocation to a payload *)
}.

Record State : Type := mkState {
  ticks : nat;
  draws : nat;
  calls : list JSValue
}.

Definition Prog (A : Type) : Type := Env -> State -> result A * State.

Definition ret {A : Type} (a : A) : Prog A := fun _ s => (Ok a, s).
Definition throw {A : Type} (e : JSError) : Prog A := fun _ s => (Throw e, s).
Definition lift {A : Type} (r : result A) : Prog A := fun _ s => (r, s).

Definition bind {A B : Type} (m : Prog A) (k : A -> Prog B) : Prog B :=
  fun env s =>
    match m env s with
    | (Ok a, s') => k a env s'
    | (Throw e, s') => (Throw e, s')
    end.

Definition try_catch {A : Type} (m : Prog A) (handler : JSError -> Prog A) : Prog A :=
  fun env s =>
    match m env s with
    | (Ok a, s') => (Ok a, s')
    | (Throw e, s') => handler e env s'
    end.

Declare Scope prog_scope.
Delimit Scope prog_scope with P.
Notation "x <- m ;; k" := (bind m (fun x => k))
  (at level 100, m at next level, right associativity) : prog_scope.

Definition ask {A : Type} (f : Env -> A) : Prog A := fun env s => (Ok (f env), s).

Definition Date_now : Prog Z :=
  fun env s => (Ok (clock env (ticks s)), mkState (S (ticks s)) (draws s) (calls s)).

Definition new_Date_toISOString : Prog JSValue :=
  (t <- Date_now ;; iso <- ask toISOString ;; ret (VStr (iso t)))%P.

Definition Math_random_suffix : Prog string :=
  fun env s => (Ok (random env (draws s)), mkState (ticks s) (S (draws s)) (calls s)).

(** [sagemakerRuntime.invokeEndpoint(params).promise()], awaited: the payload
    is logged, and the promise resolves with a body or rejects. *)
Definition invokeEndpoint (payload : JSValue) : Prog Body :=
  fun env s =>
    let s' := mkState (ticks s) (draws s) (calls s ++ [payload]) in
    match endpoint env (length (calls s)) payload with
    | Resolves body => (Ok body, s')
    | Rejects e => (Throw e, s')
    end.

(** [JSON.parse(response.Body.toString())]. *)
Definition JSON_parse (b : Body) : result JSValue :=
  match b with
  | JsonText v => Ok v
  | BadText msg => Throw (SyntaxError msg)
  end.

Record Response : Type := mkResponse {
  status : Z;
  json : gmap string JSValue
}.

(** ** The field validator: [middleware/validation.js] *)

(** What a middleware does with a request: it answers, or it calls [next()]
    with the (possibly replaced) body. *)
Inductive Outcome : Type :=
  | Responded (r : Response)
  | Next (body : JSValue).

Definition requiredFields : list string :=
  [ "Age"; "BMI"; "Waist_Circumference_cm"; "Fasting_Glucose_mg_dL";
    "HbA1c_percent"; "Systolic_BP_mmHg"; "Diastolic_BP_mmHg";
    "Family_History_Diabetes"; "Hypertension"; "Physical_Activity_Hours_Week" ].

(** [v === undefined || v === null || v === ''] *)
Definition is_missing (v : JSValue) : bool :=
  match v with
  | VUndefined | VNull => true
  | VStr s => String.eqb s ""
  | _ => false
  end.

(** [fields.filter(p)] for a predicate that may throw. *)
Fixpoint filter_fields (p : string -> result bool) (fields : list string)
  : result (list string) :=
  match fields with
  | [] => Ok []
  | f :: rest =>
      (b <- p f ;;
       kept <- filter_fields p rest ;;
       Ok (if b then f :: kept else kept))%R
  end.

Definition missing_fields_of (patientData : JSValue) : result (list string) :=
  filter_fields
    (fun field => (v <- getProp patientData field ;; Ok (is_missing v))%R)
    requiredFields.

(** [if (isNaN(d[f]) || d[f] < lo || d[f] > hi) validationErrors.push(msg)] *)
Definition push_unless_between (patientData : JSValue) (field : string)
    (lo hi : Z) (msg : string) (validationErrors : list string)
  : result (list string) :=
  (v <- getProp patientData field ;;
   nan <- isNaN v ;;
   if nan then Ok (validationErrors ++ [msg])%list
   else
     below <- lt v lo ;;
     if below then Ok (validationErrors ++ [msg])%list
     else
       above <- gt v hi ;;
       if above then Ok (validationErrors ++ [msg])%list
       else Ok validationErrors)%R.

(** [if (![0, 1].includes(Number(d[f]))) validationErrors.push(msg)] *)
Definition push_unless_binary (patientData : JSValue) (field : string)
    (msg : string) (validationErrors : list string) : result (list string) :=
  (v <- getProp patientData field ;;
   n <- ToNumber v ;;
   if negb (includes [0; 1] n) then Ok (validationErrors ++ [msg])%list
   else Ok validationErrors)%R.

(** Lines 35-95: the ten checks, in source order. *)
Definition range_checks (patientData : JSValue) : result (list string) :=
  (e <- push_unless_between patientData "Age" 18 120
         "Age must be a number between 18 and 120" [] ;;
   e <- push_unless_between patientData "BMI" 10 60
         "BMI must be a number between 10 and 60" e ;;
   e <- push_unless_between patientData "Waist_Circumference_cm" 30 200
         "Waist circumference must be between 30 and 200 cm" e ;;
   e <- push_unless_between patientData "Fasting_Glucose_mg_dL" 50 500
         "Fasting glucose must be between 50 and 500 mg/dL" e ;;
   e <- push_unless_between patientData "HbA1c_percent" 3 20
         "HbA1c must be between 3 and 20%" e ;;
   e <- push_unless_between patientData "Systolic_BP_mmHg" 70 300
         "Systolic BP must be between 70 and 300 mmHg" e ;;
   e <- push_unless_between patientData "Diastolic_BP_mmHg" 40 200
         "Diastolic BP must be between 40 and 200 mmHg" e ;;
   e <- push_unless_binary patientData "Family_History_Diabetes"
         "Family_History_Diabetes must be 0 or 1" e ;;
   e <- push_unless_binary patientData "Hypertension"
         "Hypertension must be 0 or 1" e ;;
   push_unless_between patientData "Physical_Activity_Hours_Week" 0 50
         "Physical activity must be between 0 and 50 hours per week" e)%R.

Definition Number_of (patientData : JSValue) (field : string) : result JSValue :=
  (v <- getProp patientData field ;; Number v)%R.

(** Lines 110-121: the record that replaces [req.body]. *)
Definition normalized (patientData : JSValue) : result JSValue :=
  (age <- Number_of patientData "Age" ;;
   bmi <- Number_of patientData "BMI" ;;
   waist <- Number_of patientData "Waist_Circumference_cm" ;;
   glucose <- Number_of patientData "Fasting_Glucose_mg_dL" ;;
   hba1c <- Number_of patientData "HbA1c_percent" ;;
   systolic <- Number_of patientData "Systolic_BP_mmHg" ;;
   diastolic <- Number_of patientData "Diastolic_BP_mmHg" ;;
   family <- Number_of patientData "Family_History_Diabetes" ;;
   hypertension <- Number_of patientData "Hypertension" ;;
   activity <- Number_of patientData "Physical_Activity_Hours_Week" ;;
   Ok (VObj (<["Age" := age]>
            (<["BMI" := bmi]>
            (<["Waist_Circumference_cm" := waist]>
            (<["Fasting_Glucose_mg_dL" := glucose]>
            (<["HbA1c_percent" := hba1c]>
            (<["Systolic_BP_mmHg" := systolic]>
            (<["Diastolic_BP_mmHg" := diastolic]>
            (<["Family_History_Diabetes" := family]>
            (<["Hypertension" := hypertension]>
            (<["Physical_Activity_Hours_Week" := activity]> ∅))))))))))))%R.

Definition validatePredictionInput (body : JSValue) : Prog Outcome :=
  try_catch
    (let patientData := body in
     missingFields <- lift (missing_fields_of patientData) ;;
     if (0 <? length missingFields)%nat then
       timestamp <- new_Date_toISOString ;;
       ret (Responded (mkResponse 400
              (<["error" := VStr "Missing required fields"]>
              (<["missing_fields" := str_array missingFields]>
              (<["timestamp" := timestamp]> ∅)))))
     else
       validationErrors <- lift (range_checks patientData) ;;
       if (0 <? length validationErrors)%nat then
         timestamp <- new_Date_toISOString ;;
         ret (Responded (mkResponse 400
                (<["error" := VStr "Invalid data ranges"]>
                (<["validation_errors" := str_array validationErrors]>
                (<["timestamp" := timestamp]> ∅)))))
       else
         body' <- lift (normalized patientData) ;;
         ret (Next body'))%P
    (fun error =>
       (timestamp <- new_Date_toISOString ;;
        ret (Responded (mkResponse 500
               (<["error" := VStr "Validation processing failed"]>
               (<["message" := VStr (message error)]>
               (<["timestamp" := timestamp]> ∅))))))%P).

(** ** The routes: [routes/prediction.js] *)

Definition code_is (error : JSError) (c : string) : bool :=
  match code error with
  | Some c' => String.eqb c' c
  | None => false
  end.

(** Lines 136-155: [statusCode] and [errorMessage] after the chain of tests
    on [error.code]. *)
Definition classify (error : JSError) : Z * string :=
  if code_is error "ValidationException" then
    (400, "Invalid input data format")
  else if code_is error "AccessDenied" then
    (403, "Access denied to SageMaker endpoint")
  else if code_is error "ServiceUnavailable" then
    (503, "SageMaker service temporarily unavailable")
  else if code_is error "ThrottlingException" then
    (429, "Too many requests - rate limit exceeded")
  else if code_is error "ModelError" then
    (502, "Machine learning model error")
  else
    (500, "Internal server error").

(** [process.env.NODE_ENV === 'development' ? error.message : undefined] *)
Definition details_of (node_env : option string) (error : JSError) : JSValue :=
  match node_env with
  | Some e => if String.eqb e "development" then VStr (message error) else VUndefined
  | None => VUndefined
  end.

(** The [try] block of [POST /predict], lines 78-124. *)
Definition predict_try (startTime : Z) (requestId : string) (body : JSValue)
  : Prog Response :=
  (let patientData := body in
   sagemakerStartTime <- Date_now ;;
   response <- invokeEndpoint patientData ;;
   sagemakerEndTime <- Date_now ;;
   result <- lift (JSON_parse response) ;;
   riskLevel <- lift (getProp result "risk_level") ;;
   probability <- lift (getProp result "probability") ;;
   now <- Date_now ;;
   processed_at <- new_Date_toISOString ;;
   endpoint_used <- ask endpointName ;;
   ret (mkResponse 200
          (<["backend_version" := VStr "1.0.0"]>
          (<["endpoint_used" := endpoint_used]>
          (<["processed_at" := processed_at]>
          (<["sagemaker_response_time_ms" :=
               VNum (Num.of_elapsed sagemakerEndTime sagemakerStartTime)]>
          (<["backend_processing_time_ms" := VNum (Num.of_elapsed now startTime)]>
          (<["request_id" := VStr requestId]>
          (spread result)))))))))%P.

(** The [catch] block of [POST /predict], lines 126-164. *)
Definition predict_catch (startTime : Z) (requestId : string) (error : JSError)
  : Prog Response :=
  (endTime <- Date_now ;;
   let '(statusCode, errorMessage) := classify error in
   node_env <- ask NODE_ENV ;;
   timestamp <- new_Date_toISOString ;;
   ret (mkResponse statusCode
          (<["error" := VStr errorMessage]>
          (<["request_id" := VStr requestId]>
          (<["details" := details_of node_env error]>
          (<["timestamp" := timestamp]>
          (<["processing_time_ms" := VNum (Num.of_elapsed endTime startTime)]>
          ∅)))))))%P.

(** The handler of [POST /predict], entered when the validator calls
    [next()]. *)
Definition predict (body : JSValue) : Prog Response :=
  (startTime <- Date_now ;;
   stamp <- Date_now ;;
   suffix <- Math_random_suffix ;;
   let requestId := "req_" +:+ pretty stamp +:+ "_" +:+ suffix in
   try_catch (predict_try startTime requestId body)
             (predict_catch startTime requestId))%P.

(** [router.post('/predict', validatePredictionInput, handler)] *)
Definition predict_route (body : JSValue) : Prog Response :=
  (outcome <- validatePredictionInput body ;;
   match outcome with
   | Responded r => ret r
   | Next body' => predict body'
   end)%P.

Definition Array_isArray (v : JSValue) : bool :=
  match v with VArr _ => true | _ => false end.

Definition elements (v : JSValue) : list JSValue :=
  match v with VArr items => items | _ => [] end.

(** One turn of the loop of [POST /predict-batch], lines 188-210. *)
Definition batch_item (i : nat) (patient : JSValue) : Prog JSValue :=
  try_catch
    (response <- invokeEndpoint patient ;;
     result <- lift (JSON_parse response) ;;
     ret (VObj (<["patient_index" := num (Z.of_nat i)]>
               (<["result" := result]>
               (<["status" := VStr "success"]> ∅)))))%P
    (fun error =>
       ret (VObj (<["patient_index" := num (Z.of_nat i)]>
                 (<["error" := VStr (message error)]>
                 (<["status" := VStr "failed"]> ∅))))).

(** [for (let i = ...; i < patients.length; i++)] over the items from
    index [i] on, pushing onto [results]. *)
Fixpoint batch_loop (i : nat) (remaining : list JSValue) (results : list JSValue)
  : Prog (list JSValue) :=
  match remaining with
  | [] => ret results
  | patient :: rest =>
      (entry <- batch_item i patient ;;
       batch_loop (S i) rest (results ++ [entry])%list)%P
  end.

(** [r.status === s] *)
Definition status_is (s : string) (r : JSValue) : bool :=
  match getProp r "status" with
  | Ok v => strict_eq_str v s
  | Throw _ => false
  end.

Definition count_status (s : string) (results : list JSValue) : nat :=
  length (List.filter (status_is s) results).

(** The handler of [POST /predict-batch], lines 168-229. *)
Definition predict_batch (body : JSValue) : Prog Response :=
  try_catch
    (patients <- lift (getProp body "patients") ;;
     if negb (Array_isArray patients) || (length (elements patients) =? 0)%nat then
       timestamp <- new_Date_toISOString ;;
       ret (mkResponse 400
              (<["error" := VStr "Invalid batch data - expecting array of patients"]>
              (<["timestamp" := timestamp]> ∅)))
     else if (10 <? length (elements patients))%nat then
       timestamp <- new_Date_toISOString ;;
       ret (mkResponse 400
              (<["error" := VStr "Batch size limited to 10 patients"]>
              (<["timestamp" := timestamp]> ∅)))
     else
       results <- batch_loop 0 (elements patients) [] ;;
       processed_at <- new_Date_toISOString ;;
       ret (mkResponse 200
              (<["batch_results" := VArr results]>
              (<["total_patients" := num (Z.of_nat (length (elements patients)))]>
              (<["successful_predictions" :=
                   num (Z.of_nat (count_status "success" results))]>
              (<["failed_predictions" :=
                   num (Z.of_nat (count_status "failed" results))]>
              (<["processed_at" := processed_at]> ∅)))))))%P
    (fun error =>
       (timestamp <- new_Date_toISOString ;;
        ret (mkResponse 500
               (<["error" := VStr "Batch prediction failed"]>
               (<["message" := VStr (message error)]>
               (<["timestamp" := timestamp]> ∅)))))%P).

(** ** The declared field domains and the vocabulary of the claims

    [Between lo hi] is the closed interval of the data model's table,
    [Binary] the set {0, 1}.  Each row pairs a field with its declared
    domain and with the message the validator pushes for it. *)

Inductive Domain : Type :=
  | Between (lo hi : Z)
  | Binary.

Definition field_table : list (string * Domain * string) :=
  [ ("Age", Between 18 120, "Age must be a number between 18 and 120");
    ("BMI", Between 10 60, "BMI must be a number between 10 and 60");
    ("Waist_Circumference_cm", Between 30 200,
       "Waist circumference must be between 30 and 200 cm");
    ("Fasting_Glucose_mg_dL", Between 50 500,
       "Fasting glucose must be between 50 and 500 mg/dL");
    ("HbA1c_percent", Between 3 20, "HbA1c must be between 3 and 20%");
    ("Systolic_BP_mmHg", Between 70 300,
       "Systolic BP must be between 70 and 300 mmHg");
    ("Diastolic_BP_mmHg", Between 40 200,
       "Diastolic BP must be between 40 and 200 mmHg");
    ("Family_History_Diabetes", Binary, "Family_History_Diabetes must be 0 or 1");
    ("Hypertension", Binary, "Hypertension must be 0 or 1");
    ("Physical_Activity_Hours_Week", Between 0 50,
       "Physical activity must be between 0 and 50 hours per week") ].

(** Membership of a Number in a declared domain; NaN is in none. *)
Definition in_domain (d : Domain) (n : spec_float) : bool :=
  match d with
  | Between lo hi => Num.leb (Num.of_Z lo) n && Num.leb n (Num.of_Z hi)
  | Binary => Num.eqb n (Num.of_Z 0) || Num.eqb n (Num.of_Z 1)
  end.

(** The numeric coercion of the value supplied for a field. *)
Definition coerced (body : JSValue) (field : string) : result spec_float :=
  (v <- getProp body field ;; ToNumber v)%R.

(** The value supplied for a field is there: not absent, [null] or empty. *)
Definition present (body : JSValue) (field : string) : Prop :=
  exists v, getProp body field = Ok v /\ is_missing v = false.

Definition lacking (body : JSValue) (field : string) : Prop :=
  exists v, getProp body field = Ok v /\ is_missing v = true.

Definition all_present (body : JSValue) : Prop :=
  forall field, In field requiredFields -> present body field.

(** Every supplied value converts to a Number without raising. *)
Definition coercible (body : JSValue) : Prop :=
  forall field, In field requiredFields -> exists n, coerced body field = Ok n.

(** The value supplied for [field] converts to a Number outside the
    field's declared domain; [msg] is the validator's message for it. *)
Definition out_of_range (body : JSValue) (field msg : string) : Prop :=
  exists d n,
    In (field, d, msg) field_table /\
    coerced body field = Ok n /\ in_domain d n = false.

Definition range_response (errors : list string) (timestamp : JSValue) : Response :=
  mkResponse 400
    (<["error" := VStr "Invalid data ranges"]>
    (<["validation_errors" := str_array errors]>
    (<["timestamp" := timestamp]> ∅))).

Definition missing_response (missing : list string) (timestamp : JSValue) : Response :=
  mkResponse 400
    (<["error" := VStr "Missing required fields"]>
    (<["missing_fields" := str_array missing]>
    (<["timestamp" := timestamp]> ∅))).

(** The validator answers 400 with range errors among which is [msg], and
    the route ends there without a call to the endpoint. *)
Definition rejected_naming (env : Env) (s : State) (body : JSValue) (msg : string)
  : Prop :=
  exists errors timestamp s',
    validatePredictionInput body env s
      = (Ok (Responded (range_response errors timestamp)), s') /\
    In msg errors /\
    predict_route body env s = (Ok (range_response errors timestamp), s') /\
    calls s' = calls s.

(** The validator lets the request through. *)
Definition passes (env : Env) (s : State) (body : JSValue) : Prop :=
  exists body' s', validatePredictionInput body env s = (Ok (Next body'), s').

(** The status analogues of the error classifier's table. *)
Definition status_table : list (string * Z) :=
  [ ("ValidationException", 400); ("AccessDenied", 403);
    ("ServiceUnavailable", 503); ("ThrottlingException", 429);
    ("ModelError", 502) ].

(** A context other than production. *)
Definition non_production (env : Env) : Prop := NODE_ENV env <> Some "production".

(** Some property of the response body holds the failure's message. *)
Definition carries_message (r : Response) (error : JSError) : Prop :=
  exists key, json r !! key = Some (VStr (message error)).

(** The keys the single-prediction handler adds to the endpoint's result. *)
Definition metadata_keys : list string :=
  [ "request_id"; "backend_processing_time_ms"; "sagemaker_response_time_ms";
    "processed_at"; "endpoint_used"; "backend_version" ].

(** The identifier a request entering the handler in state [s] is given. *)
Definition request_id_at (env : Env) (s : State) : string :=
  "req_" +:+ pretty (clock env (S (ticks s))) +:+ "_" +:+ random env (draws s).

(** What the batch route records for item [i] when its call is the [k]-th
    invocation of the endpoint. *)
Definition item_outcome (env : Env) (k i : nat) (patient : JSValue) : JSValue :=
  match endpoint env k patient with
  | Resolves (JsonText result) =>
      VObj (<["patient_index" := num (Z.of_nat i)]>
           (<["result" := result]>
           (<["status" := VStr "success"]> ∅)))
  | Resolves (BadText msg) =>
      VObj (<["patient_index" := num (Z.of_nat i)]>
           (<["error" := VStr msg]>
           (<["status" := VStr "failed"]> ∅)))
  | Rejects e =>
      VObj (<["patient_index" := num (Z.of_nat i)]>
           (<["error" := VStr (message e)]>
           (<["status" := VStr "failed"]> ∅)))
  end.

(** ** Auxiliary definitions for the proofs *)

(** One row of the table as a check: the message is appended when the
    coerced value is outside the row's domain. *)
Definition check_row (body : JSValue) (row : string * Domain * string)
    (errors : list string) : result (list string) :=
  let '(field, d, msg) := row in
  (n <- coerced body field ;;
   Ok (if in_domain d n then errors else (errors ++ [msg])%list))%R.

Fixpoint run_checks (body : JSValue) (rows : list (string * Domain * string))
    (errors : list string) : result (list string) :=
  match rows with
  | [] => Ok errors
  | row :: rest => (e <- check_row body row errors ;; run_checks body rest e)%R
  end.

(** The messages of the rows whose value is outside its domain. *)
Definition violations (body : JSValue) (rows : list (string * Domain * string))
  : list string :=
  flat_map (fun row : string * Domain * string =>
              let '(field, d, msg) := row in
              match coerced body field with
              | Ok n => if in_domain d n then [] else [msg]
              | Throw _ => []
              end) rows.

(** [field] counts as missing in [body]. *)
Definition missing_in (body : JSValue) (field : string) : bool :=
  match getProp body field with
  | Ok v => is_missing v
  | Throw _ => false
  end.

Definition failure_response (error : JSError) (timestamp : JSValue) : Response :=
  mkResponse 500
    (<["error" := VStr "Validation processing failed"]>
    (<["message" := VStr (message error)]>
    (<["timestamp" := timestamp]> ∅))).

Definition ticked (s : State) : State := mkState (S (ticks s)) (draws s) (calls s).
Definition stamp_at (env : Env) (s : State) : JSValue :=
  VStr (toISOString env (clock env (ticks s))).

(** The state after [n] more readings of the clock. *)
Definition later (n : nat) (s : State) : State :=
  mkState (n + ticks s) (draws s) (calls s).

(** The state in which the handler of [POST /predict] enters its [try]:
    two readings of the clock and one draw have made the request id. *)
Definition entered (s : State) : State :=
  mkState (S (S (ticks s))) (S (draws s)) (calls s).

Definition sent (payload : JSValue) (s : State) : State :=
  mkState (ticks s) (draws s) (calls s ++ [payload]).

Definition sent_all (payloads : list JSValue) (s : State) : State :=
  mkState (ticks s) (draws s) (calls s ++ payloads).

(** The success response of the handler whose [try] block starts in [s]. *)
Definition enhanced (env : Env) (s : State) (requestId : string) (startTime : Z)
    (result : JSValue) : Response :=
  mkResponse 200
    (<["backend_version" := VStr "1.0.0"]>
    (<["endpoint_used" := endpointName env]>
    (<["processed_at" := VStr (toISOString env (clock env (3 + ticks s)))]>
    (<["sagemaker_response_time_ms" :=
         VNum (Num.of_elapsed (clock env (1 + ticks s)) (clock env (ticks s)))]>
    (<["backend_processing_time_ms" :=
         VNum (Num.of_elapsed (clock env (2 + ticks s)) startTime)]>
    (<["request_id" := VStr requestId]>
    (spread result))))))).

(** The error response of the handler whose [catch] block starts in [s]. *)
Definition error_response (env : Env) (s : State) (requestId : string) (startTime : Z)
    (error : JSError) : Response :=
  mkResponse (fst (classify error))
    (<["error" := VStr (snd (classify error))]>
    (<["request_id" := VStr requestId]>
    (<["details" := details_of (NODE_ENV env) error]>
    (<["timestamp" := VStr (toISOString env (clock env (1 + ticks s)))]>
    (<["processing_time_ms" := VNum (Num.of_elapsed (clock env (ticks s)) startTime)]>
    ∅))))).

(** The entries the batch loop records for the items [remaining], the first
    of which has index [i] and is sent by the [k]-th invocation. *)
Fixpoint outcomes (env : Env) (k i : nat) (remaining : list JSValue) : list JSValue :=
  match remaining with
  | [] => []
  | patient :: rest => item_outcome env k i patient :: outcomes env (S k) (S i) rest
  end.

Definition batch_response (env : Env) (s : State) (patients results : list JSValue)
  : Response :=
  mkResponse 200
    (<["batch_results" := VArr results]>
    (<["total_patients" := num (Z.of_nat (length patients))]>
    (<["successful_predictions" := num (Z.of_nat (count_status "success" results))]>
    (<["failed_predictions" := num (Z.of_nat (count_status "failed" results))]>
    (<["processed_at" := stamp_at env s]> ∅))))).

Definition shape_response (text : string) (timestamp : JSValue) : Response :=
  mkResponse 400 (<["error" := VStr text]> (<["timestamp" := timestamp]> ∅)).

(** ** Sample data *)

Definition record_of
    (age bmi waist glucose hba1c systolic diastolic family hypertension activity
       : JSValue) : JSValue :=
  VObj (<["Age" := age]>
       (<["BMI" := bmi]>
       (<["Waist_Circumference_cm" := waist]>
       (<["Fasting_Glucose_mg_dL" := glucose]>
       (<["HbA1c_percent" := hba1c]>
       (<["Systolic_BP_mmHg" := systolic]>
       (<["Diastolic_BP_mmHg" := diastolic]>
       (<["Family_History_Diabetes" := family]>
       (<["Hypertension" := hypertension]>
       (<["Physical_Activity_Hours_Week" := activity]> ∅)))))))))).

(** 5.5 *)
Definition five_and_a_half : JSValue := VNum (Num.of_decimal false 55 (-1)).

(** The record of the specification's scenario (and of the source's
    endpoint health check). *)
Definition scenario : JSValue :=
  record_of (num 45) (num 25) (num 85) (num 95) five_and_a_half
            (num 120) (num 80) (num 0) (num 0) (num 5).

(** The scenario with [Age: 15]. *)
Definition underage : JSValue :=
  record_of (num 15) (num 25) (num 85) (num 95) five_and_a_half
            (num 120) (num 80) (num 0) (num 0) (num 5).

(** [Age: 15] again, and a BMI that is the JSON object [{"toString": 1}]. *)
Definition underage_opaque_bmi : JSValue :=
  record_of (num 15) (VObj (<["toString" := num 1]> ∅)) (num 85) (num 95)
            five_and_a_half (num 120) (num 80) (num 0) (num 0) (num 5).

(** [Age: 15] and a BMI that is the empty JSON object [{}]. *)
Definition underage_empty_bmi : JSValue :=
  record_of (num 15) (VObj ∅) (num 85) (num 95)
            five_and_a_half (num 120) (num 80) (num 0) (num 0) (num 5).

(** The scenario with [Hypertension: null]. *)
Definition null_hypertension : JSValue :=
  record_of (num 45) (num 25) (num 85) (num 95) five_and_a_half
            (num 120) (num 80) (num 0) VNull (num 5).

Definition low_risk : JSValue :=
  VObj (<["risk_level" := VStr "Low Risk"]> (<["probability" := num 0]> ∅)).

Definition sample_env (node_env : option string) (answer : nat -> JSValue -> Reply)
  : Env :=
  mkEnv node_env (VStr "diabetes-endpoint")
        (fun n => 1700000000000 + Z.of_nat n)
        (fun t => "T" +:+ pretty t)
        (fun _ => "k3j9x0q2z")
        answer.

Definition fresh : State := mkState 0 0 [].

Definition always_low_risk : nat -> JSValue -> Reply :=
  fun _ _ => Resolves (JsonText low_risk).

Definition answers_html : nat -> JSValue -> Reply :=
  fun _ _ => Resolves (BadText "Unexpected token < in JSON at position 0").

Definition fails_unclassified : nat -> JSValue -> Reply :=
  fun _ _ => Rejects (mkError "SyntaxError" None "Unexpected token < in JSON at position 0").

Definition model_failure : JSError :=
  mkError "ModelError" (Some "ModelError") "Received server error (500) from primary".

Definition fails_in_model : nat -> JSValue -> Reply :=
  fun _ _ => Rejects model_failure.

(** A body without [Age], with an empty [Hypertension] and an object for
    [BMI]. *)
Definition no_age : JSValue :=
  VObj (<["BMI" := VObj (<["toString" := num 1]> ∅)]> (<["Hypertension" := VStr ""]> ∅)).

(** 0.5 *)
Definition half : spec_float := Num.of_decimal false 5 (-1).

(** An endpoint whose second invocation fails. *)
Definition failing_second : nat -> JSValue -> Reply :=
  fun k _ => if (k =? 1)%nat then Rejects model_failure else Resolves (JsonText low_risk).

(** ** The health checks: [GET /endpoint-health] and [testAWSConnection] *)

(** The record the endpoint health check sends (lines 22-33). *)
Definition testData : JSValue :=
  record_of (num 45) (num 25) (num 85) (num 95) five_and_a_half
            (num 120) (num 80) (num 0) (num 0) (num 5).

(** The handler of [GET /endpoint-health], lines 19-70. *)
Definition endpoint_health : Prog Response :=
  try_catch
    (startTime <- Date_now ;;
     response <- invokeEndpoint testData ;;
     endTime <- Date_now ;;
     endpoint <- ask endpointName ;;
     timestamp <- new_Date_toISOString ;;
     ret (mkResponse 200
            (<["status" := VStr "healthy"]>
            (<["endpoint" := endpoint]>
            (<["response_time_ms" := VNum (Num.of_elapsed endTime startTime)]>
            (<["timestamp" := timestamp]> ∅))))))%P
    (fun error =>
       (endpoint <- ask endpointName ;;
        timestamp <- new_Date_toISOString ;;
        ret (mkResponse 503
               (<["status" := VStr "unhealthy"]>
               (<["endpoint" := endpoint]>
               (<["error" := VStr (message error)]>
               (<["timestamp" := timestamp]> ∅))))))%P).

(** [testAWSConnection] of [config/aws-config.js], lines 32-85, given how
    [sagemaker.listEndpoints] ends: it resolves ([None]) or rejects. *)
Definition testAWSConnection (listEndpoints : option JSError) : Prog bool :=
  try_catch
    (match listEndpoints with
     | None => ret true
     | Some listError =>
         (response <- invokeEndpoint testData ;; ret true)%P
     end)
    (fun error => ret false).

Definition all_space (s : string) : Prop :=
  forall c, In c (list_ascii_of_string s) -> StrNum.is_space c = true.

(** ** Further vocabulary and sample data *)

(** [req.body] is [undefined] or [null]. *)
Definition unreadable (body : JSValue) : Prop := body = VUndefined \/ body = VNull.

(** The endpoint answers the [k]-th invocation with a JSON text. *)
Definition answers_json (env : Env) (k : nat) (payload : JSValue) : bool :=
  match endpoint env k payload with
  | Resolves (JsonText _) => true
  | _ => false
  end.

(** Two bodies supply, for every required field, values that are alike for
    the validator: both missing or both there, with the same numeric
    coercion. *)
Definition alike (body1 body2 : JSValue) : Prop :=
  forall field, In field requiredFields ->
    exists v1 v2,
      getProp body1 field = Ok v1 /\ getProp body2 field = Ok v2 /\
      is_missing v1 = is_missing v2 /\ ToNumber v1 = ToNumber v2.

(** The integers from [lo] on, [n] of them. *)
Fixpoint integers_from (lo : Z) (n : nat) : list Z :=
  match n with
  | O => []
  | S n' => lo :: integers_from (lo + 1) n'
  end.

Definition interval_rows : list (Z * Z) :=
  [ (18, 120); (10, 60); (30, 200); (50, 500); (3, 20); (70, 300); (40, 200); (0, 50) ].

(** The scenario with its values given as strings. *)
Definition scenario_as_strings : JSValue :=
  record_of (VStr "45") (VStr "25.0") (VStr "85") (VStr "95") (VStr "5.5")
            (VStr "120") (VStr "80") (VStr "0") (VStr "0") (VStr "5.0").

(** An endpoint that answers with the JSON text [null]. *)
Definition answers_null : nat -> JSValue -> Reply := fun _ _ => Resolves (JsonText VNull).

(** [Age: 15], an HbA1c that is no number and a family-history flag of 2. *)
Definition three_faults : JSValue :=
  record_of (num 15) (num 25) (num 85) (num 95) (VStr "abc")
            (num 120) (num 80) (num 2) (num 0) (num 5).

(** * Properties *)

(** ** Numbers *)

Lemma SFcompare_antisym x y :
  SFcompare y x = option_map CompOpp (SFcompare x y).
Proof.
  destruct x as [sx|sx| |sx mx ex], y as [sy|sy| |sy my ey]; simpl; try reflexivity;
    try (destruct sx; reflexivity); try (destruct sy; reflexivity);
    try (destruct sx, sy; reflexivity).
  fold (Pos.compare mx my). fold (Pos.compare my mx).
  destruct sx, sy; simpl; try reflexivity;
    rewrite (Z.compare_antisym ex ey); destruct (ex ?= ey)%Z; simpl; try reflexivity;
    rewrite (Pos.compare_antisym mx my); destruct (mx ?= my)%positive; reflexivity.
Qed.

Lemma SFcompare_defined x y :
  Num.is_nan x = false -> Num.is_nan y = false -> exists c, SFcompare x y = Some c.
Proof.
  destruct x as [sx|sx| |sx mx ex], y as [sy|sy| |sy my ey]; simpl; intros; try discriminate; eauto.
Qed.

Lemma SFcompare_nan_l y : SFcompare S754_nan y = None.
Proof. reflexivity. Qed.

(** The three tests of a range check amount to non-membership in the
    closed interval. *)
Lemma between_tests (a b n : spec_float) :
  Num.is_nan a = false -> Num.is_nan b = false ->
  Num.is_nan n || Num.ltb n a || Num.ltb b n = negb (Num.leb a n && Num.leb n b).
Proof.
  intros Ha Hb. unfold Num.ltb, Num.leb, SFltb, SFleb.
  destruct (Num.is_nan n) eqn:Hn.
  - destruct n; try discriminate. simpl.
    replace (SFcompare a S754_nan) with (@None comparison) by (destruct a; reflexivity).
    reflexivity.
  - simpl. rewrite (SFcompare_antisym a n), (SFcompare_antisym n b).
    destruct (SFcompare_defined a n Ha Hn) as [c ->].
    destruct (SFcompare_defined n b Hn Hb) as [c' ->].
    destruct c, c'; reflexivity.
Qed.

Lemma SFeqb_sym x y : SFeqb x y = SFeqb y x.
Proof.
  unfold SFeqb. rewrite (SFcompare_antisym y x).
  destruct (SFcompare y x) as [[]|]; reflexivity.
Qed.

Lemma same_value_zero_eqb c n :
  Num.is_nan c = false -> Num.same_value_zero c n = Num.eqb n c.
Proof.
  intros Hc. unfold Num.same_value_zero, Num.eqb. rewrite (SFeqb_sym n c).
  destruct c; try discriminate; destruct n; reflexivity.
Qed.

Lemma binary_tests (n : spec_float) :
  includes [0; 1] n = in_domain Binary n.
Proof.
  unfold includes, in_domain, existsb.
  rewrite !same_value_zero_eqb by reflexivity. now rewrite orb_false_r.
Qed.

Lemma push_unless_between_row body field lo hi msg errors :
  Num.is_nan (Num.of_Z lo) = false -> Num.is_nan (Num.of_Z hi) = false ->
  push_unless_between body field lo hi msg errors
  = check_row body (field, Between lo hi, msg) errors.
Proof.
  intros Hlo Hhi. unfold push_unless_between, check_row, coerced, isNaN, lt, gt.
  destruct (getProp body field) as [v|e]; [|reflexivity]. cbn [rbind].
  destruct (ToNumber v) as [n|e]; [|reflexivity]. cbn [rbind].
  pose proof (between_tests _ _ n Hlo Hhi) as H. cbn [in_domain].
  destruct (Num.is_nan n), (Num.ltb n (Num.of_Z lo)), (Num.ltb (Num.of_Z hi) n);
    cbn in H; rewrite <- (negb_involutive (_ && _)), <- H; reflexivity.
Qed.

Lemma push_unless_binary_row body field msg errors :
  push_unless_binary body field msg errors = check_row body (field, Binary, msg) errors.
Proof.
  unfold push_unless_binary, check_row, coerced.
  destruct (getProp body field) as [v|e]; [|reflexivity]. cbn [rbind].
  destruct (ToNumber v) as [n|e]; [|reflexivity]. cbn [rbind].
  rewrite binary_tests. destruct (in_domain Binary n); reflexivity.
Qed.

Lemma rbind_ext {A B} (m m' : result A) (k k' : A -> result B) :
  m = m' -> (forall a, k a = k' a) -> rbind m k = rbind m' k'.
Proof. intros -> H. destruct m'; [apply H | reflexivity]. Qed.

Lemma rbind_Ok_r {A} (m : result A) : rbind m Ok = m.
Proof. destruct m; reflexivity. Qed.

(** The ten checks of the source are the table, row by row. *)
Lemma range_checks_table body :
  range_checks body = run_checks body field_table [].
Proof.
  unfold range_checks, field_table. cbn [run_checks].
  repeat (apply rbind_ext;
          [ first [ apply push_unless_between_row; reflexivity
                  | apply push_unless_binary_row ]
          | intros ? ]).
  rewrite push_unless_between_row by reflexivity.
  symmetry. apply rbind_Ok_r.
Qed.

Lemma run_checks_Ok body rows :
  forall errors errors',
    run_checks body rows errors = Ok errors' ->
    errors' = (errors ++ violations body rows)%list /\
    (forall field d msg, In (field, d, msg) rows -> exists n, coerced body field = Ok n).
Proof.
  induction rows as [|[[f d] msg] rest IH]; intros errors errors' H; cbn in H.
  - injection H as <-. split; [now rewrite app_nil_r | intros ? ? ? []].
  - destruct (coerced body f) as [n|e] eqn:Hc; cbn in H; [|discriminate].
    apply IH in H as [-> Hrest]. split.
    + cbn. rewrite Hc. destruct (in_domain d n); cbn; [reflexivity | now rewrite <- app_assoc].
    + intros field d' msg' [Heq | Hin]; [injection Heq as <- <- <-; eauto | eauto].
Qed.

Lemma run_checks_coercible body rows errors :
  (forall field d msg, In (field, d, msg) rows -> exists n, coerced body field = Ok n) ->
  run_checks body rows errors = Ok (errors ++ violations body rows)%list.
Proof.
  revert errors. induction rows as [|[[f d] msg] rest IH]; intros errors H; cbn.
  - now rewrite app_nil_r.
  - destruct (H f d msg (or_introl eq_refl)) as [n Hn]. rewrite Hn. cbn.
    rewrite IH by (intros; eapply H; right; eassumption).
    destruct (in_domain d n); cbn; [reflexivity | now rewrite <- app_assoc].
Qed.

Lemma run_checks_Throw body rows :
  forall errors e,
    run_checks body rows errors = Throw e ->
    exists field d msg, In (field, d, msg) rows /\ coerced body field = Throw e.
Proof.
  induction rows as [|[[f d] msg] rest IH]; intros errors e H; cbn in H; [discriminate|].
  destruct (coerced body f) as [n|e'] eqn:Hc; cbn in H.
  - apply IH in H as (f' & d' & m' & Hin & Hf). exists f', d', m'. split; [now right | exact Hf].
  - injection H as <-. exists f, d, msg. split; [now left | exact Hc].
Qed.

Lemma in_violations body rows msg :
  In msg (violations body rows) <->
  exists field d n, In (field, d, msg) rows /\ coerced body field = Ok n /\ in_domain d n = false.
Proof.
  unfold violations. rewrite in_flat_map. split.
  - intros ([[f d] m] & Hin & Hm). destruct (coerced body f) as [n|e] eqn:Hc; [|destruct Hm].
    destruct (in_domain d n) eqn:Hd; [destruct Hm|]. destruct Hm as [<-|[]]. eauto 8.
  - intros (f & d & n & Hin & Hc & Hd). exists (f, d, msg). split; [exact Hin|].
    rewrite Hc, Hd. now left.
Qed.

Lemma table_fields : map (fun row : string * Domain * string => fst (fst row)) field_table = requiredFields.
Proof. reflexivity. Qed.

Lemma getProp_total body key key' v :
  getProp body key = Ok v -> exists v', getProp body key' = Ok v'.
Proof. destruct body; cbn; intros H; try discriminate; eauto. Qed.

Lemma filter_fields_Ok (p : string -> result bool) (q : string -> bool) fields :
  (forall f, In f fields -> p f = Ok (q f)) ->
  filter_fields p fields = Ok (List.filter q fields).
Proof.
  induction fields as [|f rest IH]; intros H; cbn; [reflexivity|].
  rewrite (H f (or_introl eq_refl)). cbn.
  rewrite IH by (intros; apply H; now right). cbn.
  destruct (q f); reflexivity.
Qed.

Lemma missing_fields_readable body key v :
  getProp body key = Ok v ->
  missing_fields_of body = Ok (List.filter (missing_in body) requiredFields).
Proof.
  intros H. apply filter_fields_Ok. intros f _. unfold missing_in.
  destruct (getProp_total body key f v H) as [v' ->]. reflexivity.
Qed.

Lemma missing_fields_unreadable body key e :
  getProp body key = Throw e -> exists e', missing_fields_of body = Throw e'.
Proof. destruct body; cbn; intros H; try discriminate; eauto. Qed.

(** The validator, branch by branch. *)
Lemma validate_cases body env s :
  validatePredictionInput body env s =
  match missing_fields_of body with
  | Throw e => (Ok (Responded (failure_response e (stamp_at env s))), ticked s)
  | Ok missing =>
      if (0 <? length missing)%nat then
        (Ok (Responded (missing_response missing (stamp_at env s))), ticked s)
      else
        match range_checks body with
        | Throw e => (Ok (Responded (failure_response e (stamp_at env s))), ticked s)
        | Ok errors =>
            if (0 <? length errors)%nat then
              (Ok (Responded (range_response errors (stamp_at env s))), ticked s)
            else
              match normalized body with
              | Throw e => (Ok (Responded (failure_response e (stamp_at env s))), ticked s)
              | Ok body' => (Ok (Next body'), s)
              end
        end
  end.
Proof.
  unfold validatePredictionInput, try_catch, bind, lift.
  destruct (missing_fields_of body) as [missing|e]; [|reflexivity].
  destruct (0 <? length missing)%nat; [reflexivity|].
  destruct (range_checks body) as [errors|e]; [|reflexivity].
  destruct (0 <? length errors)%nat; [reflexivity|].
  destruct (normalized body) as [body'|e]; reflexivity.
Qed.

Lemma Number_of_coerced body field :
  Number_of body field = rbind (coerced body field) (fun n => Ok (VNum n)).
Proof.
  unfold Number_of, Number, coerced. destruct (getProp body field); reflexivity.
Qed.

Ltac coerce_next body :=
  match goal with
  | |- context [rbind (Number_of body ?f) _] =>
      rewrite (Number_of_coerced body f);
      let n := fresh "n" in let e := fresh "e" in let H := fresh "Hc" in
      destruct (coerced body f) as [n|e] eqn:H; cbn [rbind]
  end.

Lemma normalized_Ok body body' :
  normalized body = Ok body' ->
  exists props,
    body' = VObj props /\
    (forall field, In field requiredFields ->
       exists n, coerced body field = Ok n /\ props !! field = Some (VNum n)) /\
    (forall key, ~ In key requiredFields -> props !! key = None).
Proof.
  unfold normalized. repeat coerce_next body; try discriminate.
  intros H. injection H as <-. eexists. split; [reflexivity|]. split.
  - intros field Hin. cbn in Hin.
    repeat (destruct Hin as [<-|Hin]; [eexists; split; [eassumption | reflexivity]|]).
    destruct Hin.
  - intros key Hk. cbn in Hk.
    repeat (rewrite lookup_insert_ne by (intros Heq; apply Hk; tauto)).
    reflexivity.
Qed.

Lemma normalized_coercible body :
  coercible body -> exists body', normalized body = Ok body'.
Proof.
  intros H. unfold normalized.
  repeat (coerce_next body;
          [| match goal with
             | Hc : coerced body ?f = Throw _ |- _ =>
                 destruct (H f) as [? Hn]; [cbn; tauto | congruence]
             end]).
  eauto.
Qed.

Lemma coercible_rows body :
  coercible body <->
  (forall field d msg, In (field, d, msg) field_table -> exists n, coerced body field = Ok n).
Proof.
  unfold coercible. rewrite <- table_fields. split.
  - intros H field d msg Hin. apply H. apply in_map_iff. now exists (field, d, msg).
  - intros H field Hin. apply in_map_iff in Hin as ([[f d] m] & <- & Hin). eauto.
Qed.

Lemma filter_nil_iff {A} (q : A -> bool) l :
  List.filter q l = [] <-> forall x, In x l -> q x = false.
Proof.
  induction l as [|a l IH]; cbn; [tauto|].
  destruct (q a) eqn:Hq; split.
  - discriminate.
  - intros H. specialize (H a (or_introl eq_refl)). congruence.
  - intros H x [<-|Hin]; [exact Hq | now apply IH].
  - intros H. apply IH. intros; apply H; now right.
Qed.

Lemma length_zero {A} (l : list A) : (0 <? length l)%nat = false <-> l = [].
Proof. destruct l; cbn; split; intros; congruence. Qed.

Lemma all_present_missing body :
  all_present body <->
  exists missing, missing_fields_of body = Ok missing /\ missing = [].
Proof.
  split.
  - intros H. destruct (H "Age") as (v & Hv & _); [cbn; tauto|].
    rewrite (missing_fields_readable body _ _ Hv). eexists; split; [reflexivity|].
    apply filter_nil_iff. intros f Hf. destruct (H f Hf) as (v' & Hv' & Hm).
    unfold missing_in. now rewrite Hv'.
  - intros (missing & Hm & ->) f Hf.
    destruct (getProp body "Age") as [v|e] eqn:Hv.
    + rewrite (missing_fields_readable body _ _ Hv) in Hm.
      assert (Hnil : List.filter (missing_in body) requiredFields = []) by congruence.
      pose proof (proj1 (filter_nil_iff _ _) Hnil f Hf) as Hq. unfold missing_in in Hq.
      destruct (getProp_total body _ f _ Hv) as [v' Hv']. rewrite Hv' in Hq.
      exists v'. now split.
    + destruct (missing_fields_unreadable body _ _ Hv) as [e' He']. congruence.
Qed.

Lemma violations_nil body rows :
  violations body rows = [] <->
  forall field d msg n, In (field, d, msg) rows -> coerced body field = Ok n -> in_domain d n = true.
Proof.
  split.
  - intros Hnil field d msg n Hin Hc. destruct (in_domain d n) eqn:Hd; [reflexivity|].
    assert (In msg (violations body rows)) by (apply in_violations; eauto 8).
    rewrite Hnil in H. destruct H.
  - intros H. destruct (violations body rows) as [|m l] eqn:Hv; [reflexivity|].
    assert (Hin : In m (violations body rows)) by (rewrite Hv; now left).
    apply in_violations in Hin as (f & d & n & Hin & Hc & Hd).
    rewrite (H f d m n Hin Hc) in Hd. discriminate.
Qed.

(** Validation passes exactly when every field is there and converts to a
    Number of its declared domain. *)
Lemma passes_iff env s body :
  passes env s body <->
  all_present body /\
  (forall field d msg, In (field, d, msg) field_table ->
     exists n, coerced body field = Ok n /\ in_domain d n = true).
Proof.
  unfold passes. rewrite validate_cases, all_present_missing. split.
  - intros (body' & s' & H).
    destruct (missing_fields_of body) as [missing|e]; [|discriminate].
    destruct (0 <? length missing)%nat eqn:Hm; [discriminate|].
    apply length_zero in Hm. split; [eauto|].
    rewrite range_checks_table in H.
    destruct (run_checks body field_table []) as [errors|e] eqn:Hr; [|discriminate].
    destruct (0 <? length errors)%nat eqn:He; [discriminate|].
    apply length_zero in He. subst errors.
    apply run_checks_Ok in Hr as [Hv Hc]. cbn [app] in Hv. symmetry in Hv.
    intros field d msg Hin. destruct (Hc _ _ _ Hin) as [n Hn]. exists n. split; [exact Hn|].
    eapply violations_nil; eassumption.
  - intros [(missing & -> & ->) Hrows]. cbn.
    rewrite range_checks_table, run_checks_coercible
      by (intros f d m Hin; destruct (Hrows f d m Hin) as (n & Hn & _); eauto).
    replace (violations body field_table) with (@nil string).
    + cbn. destruct (normalized_coercible body) as [body' ->]; [|eauto].
      apply coercible_rows. intros f d m Hin. destruct (Hrows f d m Hin) as (n & Hn & _); eauto.
    + symmetry. apply violations_nil. intros f d m n Hin Hc.
      destruct (Hrows f d m Hin) as (n' & Hn' & Hd). congruence.
Qed.

Lemma validate_not_Throw body env s e s' :
  validatePredictionInput body env s <> (Throw e, s').
Proof.
  rewrite validate_cases.
  destruct (missing_fields_of body); [|discriminate].
  destruct (0 <? length a)%nat; [discriminate|].
  destruct (range_checks body); [|discriminate].
  destruct (0 <? length a0)%nat; [discriminate|].
  destruct (normalized body); discriminate.
Qed.

Lemma validate_Responded body env s r s' :
  validatePredictionInput body env s = (Ok (Responded r), s') -> s' = ticked s.
Proof.
  rewrite validate_cases.
  destruct (missing_fields_of body); [|congruence].
  destruct (0 <? length a)%nat; [congruence|].
  destruct (range_checks body); [|congruence].
  destruct (0 <? length a0)%nat; [congruence|].
  destruct (normalized body); congruence.
Qed.

Lemma predict_route_cases body env s :
  predict_route body env s =
  match validatePredictionInput body env s with
  | (Ok (Responded r), s') => (Ok r, s')
  | (Ok (Next body'), s') => predict body' env s'
  | (Throw e, s') => (Throw e, s')
  end.
Proof.
  unfold predict_route, bind.
  destruct (validatePredictionInput body env s) as [[[r|b]|e] s']; reflexivity.
Qed.

(** A validation that does not pass answers, and the route stops there
    without a call to the endpoint. *)
Lemma not_passes_responds env s body :
  ~ passes env s body ->
  exists r, validatePredictionInput body env s = (Ok (Responded r), ticked s) /\
            predict_route body env s = (Ok r, ticked s).
Proof.
  intros Hn. rewrite predict_route_cases.
  destruct (validatePredictionInput body env s) as [[[r|b]|e] s'] eqn:Hv.
  - rewrite (validate_Responded _ _ _ _ _ Hv). eauto.
  - exfalso. apply Hn. unfold passes. eauto.
  - exfalso. eapply validate_not_Throw; eassumption.
Qed.

Lemma out_of_range_not_passes env s body field msg :
  out_of_range body field msg -> ~ passes env s body.
Proof.
  intros (d & n & Hin & Hc & Hd) Hp. apply passes_iff in Hp as [_ Hrows].
  destruct (Hrows _ _ _ Hin) as (n' & Hn' & Hd'). congruence.
Qed.

Lemma rejected_when_coercible env s body field msg :
  out_of_range body field msg -> all_present body -> coercible body ->
  rejected_naming env s body msg.
Proof.
  intros Hout Hall Hco. unfold rejected_naming.
  rewrite predict_route_cases, validate_cases.
  apply all_present_missing in Hall as (missing & -> & ->). cbn.
  rewrite range_checks_table, run_checks_coercible by (now apply coercible_rows).
  cbn [app].
  assert (Hin : In msg (violations body field_table)).
  { destruct Hout as (d & n & Hin & Hc & Hd). apply in_violations. eauto 8. }
  destruct (violations body field_table) as [|m l] eqn:Hviol; [destruct Hin|].
  cbn. exists (m :: l), (stamp_at env s), (ticked s). repeat split; assumption.
Qed.

Lemma missing_in_lacking body field : missing_in body field = true <-> lacking body field.
Proof.
  unfold missing_in, lacking. destruct (getProp body field) as [v|e]; split.
  - eauto.
  - intros (v' & Hv & Hm). congruence.
  - discriminate.
  - intros (v' & Hv & _). discriminate.
Qed.

Lemma table_row_required field d msg :
  In (field, d, msg) field_table -> In field requiredFields.
Proof.
  intros H. rewrite <- table_fields. apply in_map_iff. now exists (field, d, msg).
Qed.

Lemma table_functional field d msg d' msg' :
  In (field, d, msg) field_table -> In (field, d', msg') field_table ->
  d = d' /\ msg = msg'.
Proof.
  intros H H'. cbn in H, H'.
  repeat (destruct H as [H|H]; [injection H as <- <- <-|]); try destruct H;
    repeat (destruct H' as [H'|H']; [try discriminate H'; injection H' as <- <-; auto|]);
    destruct H'.
Qed.

Lemma getProp_insert props key key' v :
  getProp (VObj (<[key := v]> props)) key'
  = if decide (key = key') then Ok v else getProp (VObj props) key'.
Proof.
  cbn. rewrite lookup_insert. destruct (decide (key = key')); reflexivity.
Qed.

Lemma coerced_insert props key key' v :
  coerced (VObj (<[key := v]> props)) key'
  = if decide (key = key') then ToNumber v else coerced (VObj props) key'.
Proof.
  unfold coerced. rewrite getProp_insert. destruct (decide (key = key')); reflexivity.
Qed.

Lemma scenario_passes env s : passes env s scenario.
Proof.
  exists scenario, s. rewrite validate_cases.
  replace (missing_fields_of scenario) with (@Ok (list string) []) by (vm_compute; reflexivity).
  replace (range_checks scenario) with (@Ok (list string) []) by (vm_compute; reflexivity).
  replace (normalized scenario) with (Ok scenario) by (vm_compute; reflexivity).
  reflexivity.
Qed.

Ltac each_field H :=
  cbn in H; repeat (destruct H as [<-|H]; [|]); [..|destruct H].

Lemma underage_out_of_range :
  out_of_range underage "Age" "Age must be a number between 18 and 120".
Proof.
  exists (Between 18 120), (Num.of_Z 15). split; [cbn; tauto|].
  split; vm_compute; reflexivity.
Qed.

Lemma underage_all_present : all_present underage.
Proof.
  intros f Hf. each_field Hf; (eexists; split; [vm_compute; reflexivity | reflexivity]).
Qed.

Lemma underage_coercible : coercible underage.
Proof.
  intros f Hf. each_field Hf; (eexists; vm_compute; reflexivity).
Qed.

(** ** The field validator *)

(** X16.  An input in which the value of some field converts to a Number
    outside the field's declared range never passes validation, and the
    route answers without invoking the endpoint.  When moreover all ten
    fields are present and every value converts to a Number without
    raising, the answer is status 400 with a range-error list that contains
    the message of that field. *)
Theorem validator_rejects_out_of_range env s body field msg :
  out_of_range body field msg ->
  ~ passes env s body /\
  (exists r s', predict_route body env s = (Ok r, s') /\ calls s' = calls s) /\
  (all_present body -> coercible body -> rejected_naming env s body msg).
Proof.
  intros Hout. pose proof (out_of_range_not_passes env s body field msg Hout) as Hnp.
  split; [exact Hnp|]. destruct (not_passes_responds env s body Hnp) as (r & Hv & Hr).
  split; [exists r, (ticked s); split; [exact Hr | reflexivity]|].
  intros Hall Hco. now apply (rejected_when_coercible env s body field msg).
Qed.

(** The scenario with [Age: 15]: a range error that mentions Age, and no
    call to the endpoint. *)
Lemma validator_rejects_underage :
  out_of_range underage "Age" "Age must be a number between 18 and 120" /\
  all_present underage /\ coercible underage /\
  ~ passes (sample_env None always_low_risk) fresh underage /\
  rejected_naming (sample_env None always_low_risk) fresh underage
    "Age must be a number between 18 and 120".
Proof.
  pose proof (validator_rejects_out_of_range (sample_env None always_low_risk) fresh
                underage _ _ underage_out_of_range) as (Hnp & _ & Hrej).
  repeat split; try assumption.
  - exact underage_out_of_range.
  - exact underage_all_present.
  - exact underage_coercible.
  - exact (Hrej underage_all_present underage_coercible).
Defined.

(** C1 fails on the code.  With [Age: 15] and a BMI that is the object
    [{"toString": 1}], all ten fields are present and Age is out of range;
    the Age message has been pushed when [isNaN] raises on the BMI, and the
    catch-all answers 500 "Validation processing failed" with no range
    error at all.  With the BMI [{}] instead, the same input gets the 400
    answer that names Age (and BMI). *)
Lemma range_error_lost_to_conversion_failure :
  all_present underage_opaque_bmi /\
  out_of_range underage_opaque_bmi "Age" "Age must be a number between 18 and 120" /\
  validatePredictionInput underage_opaque_bmi (sample_env None always_low_risk) fresh
    = (Ok (Responded (failure_response not_primitive (VStr "T1700000000000"))),
       ticked fresh) /\
  ~ rejected_naming (sample_env None always_low_risk) fresh underage_opaque_bmi
      "Age must be a number between 18 and 120" /\
  validatePredictionInput underage_empty_bmi (sample_env None always_low_risk) fresh
    = (Ok (Responded (range_response
             [ "Age must be a number between 18 and 120";
               "BMI must be a number between 10 and 60" ]
             (VStr "T1700000000000"))), ticked fresh).
Proof.
  split; [|split; [|split; [|split]]].
  - intros f Hf. each_field Hf; (eexists; split; [vm_compute; reflexivity | reflexivity]).
  - exists (Between 18 120), (Num.of_Z 15). split; [cbn; tauto|].
    split; vm_compute; reflexivity.
  - vm_compute. reflexivity.
  - intros (errors & ts & s' & Hv & _).
    apply (f_equal (fun x => match fst x with Ok (Responded r) => status r | _ => 0 end)) in Hv.
    vm_compute in Hv. discriminate.
  - vm_compute. reflexivity.
Qed.

(** C5.  When at least one required field is absent, [null] or the empty
    string, the validator answers 400 with the list of exactly the missing
    field names (in the order of [requiredFields]) and without any range
    error, whatever the other values are; and no answer of the validator
    carries both [missing_fields] and [validation_errors]. *)
Theorem missing_fields_short_circuit env s body :
  (exists field, In field requiredFields /\ lacking body field) ->
  let missing := List.filter (missing_in body) requiredFields in
  validatePredictionInput body env s
    = (Ok (Responded (missing_response missing (stamp_at env s))), ticked s) /\
  (forall field, In field missing <-> In field requiredFields /\ lacking body field) /\
  json (missing_response missing (stamp_at env s)) !! "validation_errors" = None /\
  (forall body0 r s',
      validatePredictionInput body0 env s = (Ok (Responded r), s') ->
      json r !! "missing_fields" = None \/ json r !! "validation_errors" = None).
Proof.
  intros (f & Hf & Hl) missing.
  assert (Hin : In f missing) by (apply filter_In; split; [exact Hf | now apply missing_in_lacking]).
  split; [|split; [|split]].
  - rewrite validate_cases. destruct Hl as (v & Hv & _).
    rewrite (missing_fields_readable body f v Hv). fold missing.
    destruct missing; [destruct Hin | reflexivity].
  - intros field. unfold missing. rewrite filter_In, missing_in_lacking. tauto.
  - reflexivity.
  - intros body0 r s'. rewrite validate_cases.
    destruct (missing_fields_of body0) as [m|e];
      [|intros H; injection H as <- _; left; reflexivity].
    destruct (0 <? length m)%nat; [intros H; injection H as <- _; right; reflexivity|].
    destruct (range_checks body0) as [errs|e];
      [|intros H; injection H as <- _; left; reflexivity].
    destruct (0 <? length errs)%nat; [intros H; injection H as <- _; left; reflexivity|].
    destruct (normalized body0); [discriminate|].
    intros H; injection H as <- _; left; reflexivity.
Qed.

(** A body that lacks most fields, holds an empty string for Hypertension
    and an unconvertible BMI: nine names are reported, and the BMI is never
    looked at. *)
Lemma missing_fields_of_sparse_body :
  validatePredictionInput no_age (sample_env None always_low_risk) fresh
  = (Ok (Responded (missing_response
           [ "Age"; "Waist_Circumference_cm"; "Fasting_Glucose_mg_dL"; "HbA1c_percent";
             "Systolic_BP_mmHg"; "Diastolic_BP_mmHg"; "Family_History_Diabetes";
             "Hypertension"; "Physical_Activity_Hours_Week" ]
           (VStr "T1700000000000"))), ticked fresh).
Proof.
  refine (proj1 (missing_fields_short_circuit (sample_env None always_low_risk) fresh no_age _)).
  exists "Age". split; [cbn; tauto|]. exists VUndefined. split; reflexivity.
Defined.

(** C6.  When validation passes, the state is untouched and the body handed
    on is an object with exactly the ten fields, each holding the numeric
    coercion of the value supplied for it, which lies in the field's
    declared domain (0 or 1 for the two flags); and the scenario record,
    already numeric, is handed on as it is. *)
Theorem passing_input_is_coerced env s :
  (forall body body' s',
     validatePredictionInput body env s = (Ok (Next body'), s') ->
     s' = s /\
     exists props,
       body' = VObj props /\
       (forall field d msg, In (field, d, msg) field_table ->
          exists n, coerced body field = Ok n /\
                    props !! field = Some (VNum n) /\ in_domain d n = true) /\
       (forall key, ~ In key requiredFields -> props !! key = None)) /\
  validatePredictionInput scenario env s = (Ok (Next scenario), s).
Proof.
  split.
  - intros body body' s' H.
    assert (Hp : passes env s body) by (unfold passes; eauto).
    apply passes_iff in Hp as [_ Hrows].
    rewrite validate_cases in H.
    destruct (missing_fields_of body) as [m|e]; [|discriminate].
    destruct (0 <? length m)%nat; [discriminate|].
    destruct (range_checks body) as [errs|e]; [|discriminate].
    destruct (0 <? length errs)%nat; [discriminate|].
    destruct (normalized body) as [b|e] eqn:Hn; [|discriminate].
    injection H as <- <-. split; [reflexivity|].
    apply normalized_Ok in Hn as (props & -> & Hfields & Hother).
    exists props. split; [reflexivity|]. split; [|exact Hother].
    intros field d msg Hin.
    destruct (Hrows _ _ _ Hin) as (n & Hc & Hd).
    destruct (Hfields field (table_row_required _ _ _ Hin)) as (n' & Hc' & Hl).
    exists n. repeat split; [exact Hc | congruence | exact Hd].
  - destruct (scenario_passes env s) as (b & s' & H). rewrite validate_cases in *.
    replace (missing_fields_of scenario) with (@Ok (list string) []) by (vm_compute; reflexivity).
    replace (range_checks scenario) with (@Ok (list string) []) by (vm_compute; reflexivity).
    replace (normalized scenario) with (Ok scenario) by (vm_compute; reflexivity).
    reflexivity.
Qed.

(** The scenario record passes, and what is handed on has its ten fields in
    their domains. *)
Lemma scenario_passes_unchanged :
  validatePredictionInput scenario (sample_env None always_low_risk) fresh
    = (Ok (Next scenario), fresh) /\
  exists props,
    scenario = VObj props /\
    forall field d msg, In (field, d, msg) field_table ->
      exists n, coerced scenario field = Ok n /\
                props !! field = Some (VNum n) /\ in_domain d n = true.
Proof.
  destruct (passing_input_is_coerced (sample_env None always_low_risk) fresh)
    as [Hall Hscenario].
  split; [exact Hscenario|].
  destruct (Hall _ _ _ Hscenario) as (_ & props & Heq & Hfields & _).
  exists props. split; [exact Heq | exact Hfields].
Defined.

Lemma missing_flag_refused env s props field v :
  In field requiredFields ->
  is_missing v = true ->
  exists missing,
    validatePredictionInput (VObj (<[field := v]> props)) env s
      = (Ok (Responded (missing_response missing (stamp_at env s))), ticked s) /\
    In field missing.
Proof.
  intros Hf Hm. rewrite validate_cases.
  assert (Hv : getProp (VObj (<[field := v]> props)) field = Ok v).
  { rewrite getProp_insert. destruct (decide (field = field)); congruence. }
  rewrite (missing_fields_readable _ field v Hv).
  assert (Hin : In field (List.filter (missing_in (VObj (<[field := v]> props)))
                            requiredFields)).
  { apply filter_In. split; [exact Hf|]. unfold missing_in. now rewrite Hv. }
  destruct (List.filter _ requiredFields) as [|f l] eqn:Hfl; [destruct Hin|].
  exists (f :: l). split; [reflexivity | exact Hin].
Qed.

(** C10, as amended.  Take an input that passes validation and replace one
    of its two flags by a value [v].  When [v] is supplied (not absent,
    [null] or the empty string), the new input passes exactly when
    [Number(v)] is a Number equal to 0 or 1, and then the flag handed on is
    that Number; when [Number(v)] is any other Number the validator answers
    400 with the flag's range error.  When [v] is [undefined], [null] or the
    empty string, the input is refused with "Missing required fields"
    naming the flag, whatever [v] converts to.  [false], [true], ["0"] and
    ["1"] convert to 0, 1, 0 and 1; 0.5, 2 and ["yes"] convert to Numbers
    that are neither. *)
Theorem binary_flag_acceptance env s props flag msg v :
  In (flag, Binary, msg) field_table ->
  passes env s (VObj props) ->
  let body := VObj (<[flag := v]> props) in
  (is_missing v = false ->
     (passes env s body <-> exists n, ToNumber v = Ok n /\ in_domain Binary n = true) /\
     (forall body' s',
         validatePredictionInput body env s = (Ok (Next body'), s') ->
         exists n, ToNumber v = Ok n /\ getProp body' flag = Ok (VNum n)) /\
     (forall n, ToNumber v = Ok n -> in_domain Binary n = false ->
                rejected_naming env s body msg)) /\
  (is_missing v = true ->
     ~ passes env s body /\
     exists missing,
       validatePredictionInput body env s
         = (Ok (Responded (missing_response missing (stamp_at env s))), ticked s) /\
       In flag missing) /\
  (ToNumber (VBool false) = Ok (Num.of_Z 0) /\ ToNumber (VBool true) = Ok (Num.of_Z 1) /\
   ToNumber (VStr "0") = Ok (Num.of_Z 0) /\ ToNumber (VStr "1") = Ok (Num.of_Z 1)) /\
  (in_domain Binary half = false /\ in_domain Binary (Num.of_Z 2) = false /\
   exists n, ToNumber (VStr "yes") = Ok n /\ in_domain Binary n = false).
Proof.
  intros Hrow Hbase body.
  split; [|split; [|split]].
  - intros Hv. apply passes_iff in Hbase as [Hall Hrows].
    assert (Hall' : all_present body).
    { intros f Hf. unfold present, body. rewrite getProp_insert.
      destruct (decide (flag = f)); [eauto | apply Hall, Hf]. }
    assert (Hothers : forall f d m, In (f, d, m) field_table -> flag <> f ->
                        exists n, coerced body f = Ok n /\ in_domain d n = true).
    { intros f d m Hin Hne. unfold body. rewrite coerced_insert.
      destruct (decide (flag = f)); [contradiction | eauto]. }
    assert (Hflag : coerced body flag = ToNumber v).
    { unfold body. rewrite coerced_insert. destruct (decide (flag = flag)); congruence. }
    assert (Hiff : passes env s body
                   <-> exists n, ToNumber v = Ok n /\ in_domain Binary n = true).
    { rewrite passes_iff. split.
      - intros [_ H]. destruct (H _ _ _ Hrow) as (n & Hn & Hd). exists n. split; congruence.
      - intros (n & Hn & Hd). split; [exact Hall'|]. intros f d m Hin.
        destruct (decide (flag = f)) as [<-|Hne]; [|eauto].
        destruct (table_functional _ _ _ _ _ Hin Hrow) as [-> ->].
        exists n. split; congruence. }
    split; [exact Hiff|]. split.
    + intros body' s' Hnext.
      assert (Hp : passes env s body) by (unfold passes; eauto).
      apply Hiff in Hp as (n & Hn & _). exists n. split; [exact Hn|].
      rewrite validate_cases in Hnext.
      destruct (missing_fields_of body) as [m|e]; [|discriminate].
      destruct (0 <? length m)%nat; [discriminate|].
      destruct (range_checks body) as [errs|e]; [|discriminate].
      destruct (0 <? length errs)%nat; [discriminate|].
      destruct (normalized body) as [b|e] eqn:Hnorm; [|discriminate].
      injection Hnext as <- _.
      apply normalized_Ok in Hnorm as (props' & -> & Hfields & _).
      destruct (Hfields flag (table_row_required _ _ _ Hrow)) as (n' & Hc & Hl).
      unfold getProp. rewrite Hl. cbn [default from_option id]. congruence.
    + intros n Hn Hd. apply (rejected_when_coercible env s body flag msg).
      * exists Binary, n. repeat split; [exact Hrow | congruence | exact Hd].
      * exact Hall'.
      * apply coercible_rows. intros f d m Hin.
        destruct (decide (flag = f)) as [<-|Hne].
        -- exists n. congruence.
        -- destruct (Hothers f d m Hin Hne) as (n' & Hn' & _). eauto.
  - intros Hv.
    destruct (missing_flag_refused env s props flag v (table_row_required _ _ _ Hrow) Hv)
      as (missing & Hrun & Hin).
    split; [|exists missing; split; [exact Hrun | exact Hin]].
    intros (b & s' & Hnext). unfold body in Hnext. rewrite Hrun in Hnext. discriminate.
  - repeat split; vm_compute; reflexivity.
  - split; [vm_compute; reflexivity|]. split; [vm_compute; reflexivity|].
    exists Num.NaN. split; vm_compute; reflexivity.
Qed.

(** The scenario with [Hypertension: true] passes; with
    [Hypertension: "yes"] it is rejected with the flag's range error. *)
Lemma hypertension_true_is_one :
  passes (sample_env None always_low_risk) fresh
    (VObj (<["Hypertension" := VBool true]> (spread scenario))) /\
  rejected_naming (sample_env None always_low_risk) fresh
    (VObj (<["Hypertension" := VStr "yes"]> (spread scenario)))
    "Hypertension must be 0 or 1".
Proof.
  assert (Hrow : In ("Hypertension", Binary, "Hypertension must be 0 or 1") field_table)
    by (cbn; tauto).
  split.
  - pose proof (binary_flag_acceptance (sample_env None always_low_risk) fresh
                  (spread scenario) _ _ (VBool true) Hrow
                  (scenario_passes _ _)) as H.
    cbv zeta in H. destruct H as (Hsupplied & _).
    destruct (Hsupplied eq_refl) as (Hiff & _).
    apply (proj2 Hiff). exists (Num.of_Z 1). split; vm_compute; reflexivity.
  - pose proof (binary_flag_acceptance (sample_env None always_low_risk) fresh
                  (spread scenario) _ _ (VStr "yes") Hrow
                  (scenario_passes _ _)) as H.
    cbv zeta in H. destruct H as (Hsupplied & _).
    destruct (Hsupplied eq_refl) as (_ & _ & Hrej).
    apply (Hrej Num.NaN); vm_compute; reflexivity.
Defined.

(** C10 as stated fails: [null] converts to 0, which is one of the two
    accepted values, yet the scenario with [Hypertension: null] does not
    pass; it is refused with "Missing required fields". *)
Lemma null_flag_converts_to_zero_but_is_refused :
  ToNumber VNull = Ok (Num.of_Z 0) /\
  in_domain Binary (Num.of_Z 0) = true /\
  ~ passes (sample_env None always_low_risk) fresh null_hypertension /\
  validatePredictionInput null_hypertension (sample_env None always_low_risk) fresh
    = (Ok (Responded (missing_response ["Hypertension"] (VStr "T1700000000000"))),
       ticked fresh).
Proof.
  assert (Hrun : validatePredictionInput null_hypertension
                   (sample_env None always_low_risk) fresh
                 = (Ok (Responded (missing_response ["Hypertension"]
                                     (VStr "T1700000000000"))), ticked fresh))
    by (vm_compute; reflexivity).
  split; [reflexivity|]. split; [vm_compute; reflexivity|]. split; [|exact Hrun].
  intros (b & s' & Hnext). rewrite Hrun in Hnext. discriminate.
Qed.

(** ** The single-prediction handler *)

Lemma predict_catch_cases st rid e env s :
  predict_catch st rid e env s = (Ok (error_response env s rid st e), later 2 s).
Proof.
  unfold predict_catch, error_response. destruct (classify e) as [c m]. reflexivity.
Qed.

Lemma predict_try_cases st rid body env s :
  predict_try st rid body env s =
  match endpoint env (length (calls s)) body with
  | Rejects e => (Throw e, sent body (later 1 s))
  | Resolves b =>
      match JSON_parse b with
      | Throw e => (Throw e, sent body (later 2 s))
      | Ok result =>
          match getProp result "risk_level" with
          | Throw e => (Throw e, sent body (later 2 s))
          | Ok _ => (Ok (enhanced env s rid st result), sent body (later 4 s))
          end
      end
  end.
Proof.
  unfold predict_try, bind, invokeEndpoint, lift. cbn [Date_now ticks draws calls].
  destruct (endpoint env (length (calls s)) body) as [b|e]; [|reflexivity].
  destruct (JSON_parse b) as [result|e]; [|reflexivity].
  destruct (getProp result "risk_level") as [x|e] eqn:Hx; [|reflexivity].
  destruct (getProp_total result _ "probability" _ Hx) as [y ->].
  reflexivity.
Qed.

Lemma predict_cases body env s :
  predict body env s =
  match predict_try (clock env (ticks s)) (request_id_at env s) body env (entered s) with
  | (Ok r, s') => (Ok r, s')
  | (Throw e, s') => predict_catch (clock env (ticks s)) (request_id_at env s) e env s'
  end.
Proof. reflexivity. Qed.

(** The handler of [POST /predict], outcome by outcome. *)
Lemma predict_outcome body env s :
  predict body env s =
  match endpoint env (length (calls s)) body with
  | Rejects e =>
      (Ok (error_response env (sent body (later 1 (entered s))) (request_id_at env s)
             (clock env (ticks s)) e),
       later 2 (sent body (later 1 (entered s))))
  | Resolves b =>
      match JSON_parse b with
      | Throw e =>
          (Ok (error_response env (sent body (later 2 (entered s))) (request_id_at env s)
                 (clock env (ticks s)) e),
           later 2 (sent body (later 2 (entered s))))
      | Ok result =>
          match getProp result "risk_level" with
          | Throw e =>
              (Ok (error_response env (sent body (later 2 (entered s)))
                     (request_id_at env s) (clock env (ticks s)) e),
               later 2 (sent body (later 2 (entered s))))
          | Ok _ =>
              (Ok (enhanced env (entered s) (request_id_at env s)
                     (clock env (ticks s)) result),
               sent body (later 4 (entered s)))
          end
      end
  end.
Proof.
  rewrite predict_cases, predict_try_cases. cbn [entered calls].
  destruct (endpoint env (length (calls s)) body) as [b|e];
    [|apply predict_catch_cases].
  destruct (JSON_parse b) as [result|e]; [|apply predict_catch_cases].
  destruct (getProp result "risk_level") as [x|e]; [reflexivity | apply predict_catch_cases].
Qed.

Lemma classify_status e :
  (forall c st, In (c, st) status_table -> code e = Some c -> fst (classify e) = st) /\
  ((forall c st, In (c, st) status_table -> code e <> Some c) ->
     classify e = (500, "Internal server error")).
Proof.
  unfold classify, code_is. destruct (code e) as [c0|].
  - split.
    + intros c st Hin [= ->]. cbn in Hin.
      repeat (destruct Hin as [[= <- <-]|Hin]; [reflexivity|]). destruct Hin.
    + intros H.
      repeat match goal with
             | |- context [String.eqb c0 ?c] =>
                 destruct (String.eqb_spec c0 c) as [->|_];
                 [exfalso; eapply H; [|reflexivity]; cbn; tauto|]
             end.
      reflexivity.
  - split; [intros c st _ [=] | reflexivity].
Qed.

(** C3, as amended.  Whatever failure reaches the [catch] block of the
    handler, a response is produced: its status is the one the table gives
    for the failure's code (400, 403, 503, 429, 502), and 500 with
    "Internal server error" for every other code or none.  The failure's
    message is put in [details] exactly when [NODE_ENV] is ["development"];
    in every other environment [details] is [undefined].  The handler
    itself always answers. *)
Theorem failures_are_classified env s startTime requestId e :
  exists r s',
    predict_catch startTime requestId e env s = (Ok r, s') /\
    (forall c st, In (c, st) status_table -> code e = Some c -> status r = st) /\
    ((forall c st, In (c, st) status_table -> code e <> Some c) ->
       status r = 500 /\ json r !! "error" = Some (VStr "Internal server error")) /\
    (NODE_ENV env = Some "development" ->
       json r !! "details" = Some (VStr (message e)) /\ carries_message r e) /\
    (NODE_ENV env <> Some "development" -> json r !! "details" = Some VUndefined) /\
    (forall body, exists r' s'', predict body env s = (Ok r', s'')).
Proof.
  rewrite predict_catch_cases. eexists; eexists. split; [reflexivity|].
  destruct (classify_status e) as [Hknown Hother].
  split; [exact Hknown|]. split; [|split; [|split]].
  - intros H. cbn [status json error_response]. rewrite (Hother H). split; reflexivity.
  - intros Hdev.
    assert (Hd : json (error_response env s requestId startTime e) !! "details"
                 = Some (VStr (message e))).
    { cbn [json error_response]. rewrite Hdev. reflexivity. }
    split; [exact Hd | exists "details"; exact Hd].
  - intros Hdev. cbn [json error_response].
    replace (details_of (NODE_ENV env) e) with VUndefined; [reflexivity|].
    unfold details_of. destruct (NODE_ENV env) as [v|]; [|reflexivity].
    destruct (String.eqb_spec v "development") as [->|_]; [contradiction | reflexivity].
  - intros body. rewrite predict_outcome.
    destruct (endpoint env (length (calls s)) body) as [b|e']; [|eauto].
    destruct (JSON_parse b) as [result|e']; [|eauto].
    destruct (getProp result "risk_level") as [x|e']; eauto.
Qed.

(** A model failure under development: 502, with the message in
    [details]. *)
Lemma model_error_is_502 :
  exists r s',
    predict_catch 1700000000000 "req_1700000000001_k3j9x0q2z" model_failure
      (sample_env (Some "development") fails_in_model) fresh = (Ok r, s') /\
    status r = 502 /\
    json r !! "details" = Some (VStr "Received server error (500) from primary").
Proof.
  destruct (failures_are_classified (sample_env (Some "development") fails_in_model) fresh
              1700000000000 "req_1700000000001_k3j9x0q2z" model_failure)
    as (r & s' & Hrun & Hknown & _ & Hdev & _).
  exists r, s'. split; [exact Hrun|]. split.
  - apply (Hknown "ModelError" 502); [cbn; tauto | reflexivity].
  - apply Hdev. reflexivity.
Defined.

Lemma lookup_concrete_ne (m : gmap string JSValue) (k k' : string) (v x : JSValue) :
  <[k := v]> m !! k' = Some x -> v <> x -> m !! k' = Some x.
Proof.
  intros H Hne. apply lookup_insert_Some in H as [[_ Heq]|[_ H]]; [contradiction | exact H].
Qed.

(** C3 as stated fails: under [NODE_ENV=test], which is not production, a
    model failure is answered with 502 and with [details] undefined; no
    property of the response holds the failure's message. *)
Lemma message_dropped_outside_development :
  non_production (sample_env (Some "test") fails_in_model) /\
  exists r s',
    predict scenario (sample_env (Some "test") fails_in_model) fresh = (Ok r, s') /\
    status r = 502 /\
    json r !! "details" = Some VUndefined /\
    ~ carries_message r model_failure.
Proof.
  split; [discriminate|]. rewrite predict_outcome.
  change (endpoint _ _ scenario) with (Rejects model_failure).
  eexists; eexists. split; [reflexivity|]. split; [reflexivity|]. split; [reflexivity|].
  intros [key H]. cbn [json error_response] in H.
  repeat (apply lookup_concrete_ne in H; [|vm_compute; discriminate]).
  discriminate H.
Qed.

(** C7, as amended.  When the endpoint call succeeds with a body that is
    no JSON text, the handler answers with the fall-through of the
    classifier: status 500, "Internal server error", the parser's message
    in [details] only under development, and the request id. *)
Theorem malformed_body_is_internal env s body msg :
  endpoint env (length (calls s)) body = Resolves (BadText msg) ->
  exists r s',
    predict body env s = (Ok r, s') /\
    status r = 500 /\
    json r !! "error" = Some (VStr "Internal server error") /\
    json r !! "details" = Some (details_of (NODE_ENV env) (SyntaxError msg)) /\
    json r !! "request_id" = Some (VStr (request_id_at env s)).
Proof.
  intros H. rewrite predict_outcome, H. cbn [JSON_parse].
  eexists; eexists. split; [reflexivity|]. repeat split; reflexivity.
Qed.

(** An HTML error page as body: 500 "Internal server error". *)
Lemma html_body_is_internal :
  exists r s',
    predict scenario (sample_env None answers_html) fresh = (Ok r, s') /\
    status r = 500 /\
    json r !! "error" = Some (VStr "Internal server error").
Proof.
  destruct (malformed_body_is_internal (sample_env None answers_html) fresh scenario
              "Unexpected token < in JSON at position 0" eq_refl)
    as (r & s' & Hrun & Hst & Herr & _).
  exists r, s'. repeat split; assumption.
Defined.

(** C7 as stated fails: a body that does not parse is answered with the
    same status and the same error text as a failure with a code the
    classifier does not know, that is as the internal kind, not as a kind
    of its own. *)
Lemma malformed_body_reported_as_unclassified :
  exists r s' r0 s0,
    predict scenario (sample_env None answers_html) fresh = (Ok r, s') /\
    predict scenario (sample_env None fails_unclassified) fresh = (Ok r0, s0) /\
    status r = 500 /\ status r = status r0 /\
    json r !! "error" = Some (VStr "Internal server error") /\
    json r !! "error" = json r0 !! "error".
Proof.
  rewrite !predict_outcome.
  change (endpoint (sample_env None answers_html) _ scenario)
    with (Resolves (BadText "Unexpected token < in JSON at position 0")).
  change (endpoint (sample_env None fails_unclassified) _ scenario)
    with (Rejects (mkError "SyntaxError" None "Unexpected token < in JSON at position 0")).
  cbn [JSON_parse]. do 4 eexists. split; [reflexivity|]. split; [reflexivity|].
  repeat split; reflexivity.
Qed.

Ltac enhanced_key :=
  cbn [json enhanced];
  repeat (rewrite lookup_insert_ne by discriminate);
  rewrite lookup_insert_eq; reflexivity.

(** C9, as amended.  The handler always answers, and its answer carries
    the request id made at its entry.  On success (status 200) the endpoint
    resolved with a JSON result, every key outside the six metadata keys
    reads as in that result, and the six metadata keys hold the two
    latencies, the completion time, the endpoint name and the version.  On
    failure the answer carries the time elapsed since the entry.  (An input
    rejected by the validator never enters the handler; its answer has
    neither.) *)
Theorem handler_response_frame env s body :
  exists r s',
    predict body env s = (Ok r, s') /\
    json r !! "request_id" = Some (VStr (request_id_at env s)) /\
    (status r = 200 ->
       exists result,
         endpoint env (length (calls s)) body = Resolves (JsonText result) /\
         (forall key, ~ In key metadata_keys -> json r !! key = spread result !! key) /\
         json r !! "backend_processing_time_ms"
           = Some (VNum (Num.of_elapsed (clock env (4 + ticks s)) (clock env (ticks s)))) /\
         json r !! "sagemaker_response_time_ms"
           = Some (VNum (Num.of_elapsed (clock env (3 + ticks s)) (clock env (2 + ticks s)))) /\
         json r !! "processed_at" = Some (VStr (toISOString env (clock env (5 + ticks s)))) /\
         json r !! "endpoint_used" = Some (endpointName env) /\
         json r !! "backend_version" = Some (VStr "1.0.0")) /\
    (status r <> 200 ->
       exists k, (ticks s < k)%nat /\
         json r !! "processing_time_ms"
           = Some (VNum (Num.of_elapsed (clock env k) (clock env (ticks s))))).
Proof.
  rewrite predict_outcome.
  assert (Hclass : forall e, fst (classify e) <> 200).
  { intros e. unfold classify.
    repeat match goal with |- context [if ?b then _ else _] => destruct b end;
      discriminate. }
  assert (Herr : forall s0 e,
             (ticks s < ticks s0)%nat ->
             let r := error_response env s0 (request_id_at env s) (clock env (ticks s)) e in
             json r !! "request_id" = Some (VStr (request_id_at env s)) /\
             (status r = 200 -> False) /\
             exists k, (ticks s < k)%nat /\
               json r !! "processing_time_ms"
                 = Some (VNum (Num.of_elapsed (clock env k) (clock env (ticks s))))).
  { intros s0 e Hlt r. split; [reflexivity|]. split; [apply Hclass|].
    exists (ticks s0). split; [exact Hlt | reflexivity]. }
  destruct (endpoint env (length (calls s)) body) as [[result|msg]|e].
  - cbn [JSON_parse]. destruct (getProp result "risk_level") as [x|e].
    + eexists; eexists. split; [reflexivity|]. split; [enhanced_key|]. split.
      * intros _. exists result. split; [reflexivity|]. split.
        -- intros key Hk. cbn [json enhanced]. cbn in Hk.
           repeat (rewrite lookup_insert_ne by (intros Heq; apply Hk; tauto)).
           reflexivity.
        -- repeat split; enhanced_key.
      * intros H. exfalso. apply H. reflexivity.
    + eexists; eexists. split; [reflexivity|].
      edestruct (Herr (sent body (later 2 (entered s))) e) as (H1 & H2 & H3); [cbn; lia|].
      split; [exact H1|]. split; [intros H; destruct (H2 H) | intros _; exact H3].
  - cbn [JSON_parse]. eexists; eexists. split; [reflexivity|].
    edestruct (Herr (sent body (later 2 (entered s))) (SyntaxError msg)) as (H1 & H2 & H3);
      [cbn; lia|].
    split; [exact H1|]. split; [intros H; destruct (H2 H) | intros _; exact H3].
  - eexists; eexists. split; [reflexivity|].
    edestruct (Herr (sent body (later 1 (entered s))) e) as (H1 & H2 & H3); [cbn; lia|].
    split; [exact H1|]. split; [intros H; destruct (H2 H) | intros _; exact H3].
Qed.

(** A successful prediction: the result's own fields pass through. *)
Lemma low_risk_passes_through :
  exists r s',
    predict scenario (sample_env None always_low_risk) fresh = (Ok r, s') /\
    status r = 200 /\
    json r !! "request_id" = Some (VStr "req_1700000000001_k3j9x0q2z") /\
    json r !! "risk_level" = Some (VStr "Low Risk") /\
    json r !! "probability" = Some (num 0).
Proof.
  destruct (handler_response_frame (sample_env None always_low_risk) fresh scenario)
    as (r & s' & Hrun & Hid & Hok & _).
  assert (Hst : status r = 200).
  { rewrite predict_outcome in Hrun.
    change (endpoint _ _ scenario) with (Resolves (JsonText low_risk)) in Hrun.
    injection Hrun as <- _. reflexivity. }
  destruct (Hok Hst) as (result & Hres & Hframe & _).
  change (endpoint _ _ scenario) with (Resolves (JsonText low_risk)) in Hres.
  injection Hres as <-.
  exists r, s'. split; [exact Hrun|]. split; [exact Hst|]. split; [exact Hid|].
  split; (rewrite Hframe; [reflexivity | cbn; intuition discriminate]).
Defined.

(** C9 as stated fails: the answer to a validation failure, a failure of
    the single-prediction route, carries neither a request id nor a
    processing time. *)
Lemma validation_failure_has_no_request_id :
  exists r s',
    predict_route underage (sample_env None always_low_risk) fresh = (Ok r, s') /\
    status r = 400 /\
    json r !! "request_id" = None /\
    json r !! "processing_time_ms" = None.
Proof.
  eexists; eexists. split; [vm_compute; reflexivity|].
  repeat split; vm_compute; reflexivity.
Qed.

(** ** The batch handler *)

Lemma batch_item_outcome i patient env s :
  batch_item i patient env s
  = (Ok (item_outcome env (length (calls s)) i patient), sent patient s).
Proof.
  unfold batch_item, try_catch, bind, invokeEndpoint, item_outcome, lift.
  destruct (endpoint env (length (calls s)) patient) as [[v|msg]|e]; reflexivity.
Qed.

Lemma batch_loop_outcomes env remaining :
  forall i results s,
    batch_loop i remaining results env s
    = (Ok (results ++ outcomes env (length (calls s)) i remaining)%list,
       mkState (ticks s) (draws s) (calls s ++ remaining)).
Proof.
  induction remaining as [|p rest IH]; intros i results s; cbn [batch_loop outcomes].
  - rewrite !app_nil_r. destruct s; reflexivity.
  - unfold bind. rewrite batch_item_outcome, IH. cbn [sent calls ticks draws].
    rewrite length_app, Nat.add_1_r, <- !app_assoc. reflexivity.
Qed.

Lemma outcomes_length env remaining : forall k i, length (outcomes env k i remaining) = length remaining.
Proof. induction remaining; intros; cbn; [reflexivity | now rewrite IHremaining]. Qed.

Lemma outcomes_lookup env remaining :
  forall k i j p,
    remaining !! j = Some p ->
    outcomes env k i remaining !! j = Some (item_outcome env (k + j) (i + j) p).
Proof.
  induction remaining as [|q rest IH]; intros k i j p H; [discriminate|].
  destruct j as [|j].
  - injection H as ->. cbn [outcomes]. now rewrite !Nat.add_0_r.
  - change (rest !! j = Some p) in H.
    change (outcomes env (S k) (S i) rest !! j
            = Some (item_outcome env (k + S j) (i + S j) p)).
    rewrite (IH (S k) (S i) j p H). now rewrite !Nat.add_succ_r.
Qed.

Lemma item_outcome_status env k i p :
  getProp (item_outcome env k i p) "patient_index" = Ok (num (Z.of_nat i)) /\
  (status_is "success" (item_outcome env k i p) = true /\
   status_is "failed" (item_outcome env k i p) = false
   \/
   status_is "success" (item_outcome env k i p) = false /\
   status_is "failed" (item_outcome env k i p) = true).
Proof.
  unfold item_outcome. destruct (endpoint env k p) as [[v|msg]|e];
    (split; [reflexivity|]); [left|right|right]; split; reflexivity.
Qed.

Lemma count_status_outcomes env remaining :
  forall k i,
    (count_status "success" (outcomes env k i remaining)
     + count_status "failed" (outcomes env k i remaining) = length remaining)%nat.
Proof.
  unfold count_status.
  induction remaining as [|p rest IH]; intros k i; [reflexivity|]. cbn [outcomes List.filter].
  destruct (item_outcome_status env k i p) as [_ [[-> ->]|[-> ->]]];
    cbn [length]; specialize (IH (S k) (S i)); lia.
Qed.

(** The handler of [POST /predict-batch], branch by branch. *)
Lemma predict_batch_cases body env s :
  predict_batch body env s =
  match getProp body "patients" with
  | Throw e =>
      (Ok (mkResponse 500
             (<["error" := VStr "Batch prediction failed"]>
             (<["message" := VStr (message e)]>
             (<["timestamp" := stamp_at env s]> ∅)))), ticked s)
  | Ok patients =>
      if negb (Array_isArray patients) || (length (elements patients) =? 0)%nat then
        (Ok (shape_response "Invalid batch data - expecting array of patients"
               (stamp_at env s)), ticked s)
      else if (10 <? length (elements patients))%nat then
        (Ok (shape_response "Batch size limited to 10 patients" (stamp_at env s)), ticked s)
      else
        (Ok (batch_response env (sent_all (elements patients) s) (elements patients)
               (outcomes env (length (calls s)) 0 (elements patients))),
         ticked (sent_all (elements patients) s))
  end.
Proof.
  unfold predict_batch, try_catch, bind, lift.
  destruct (getProp body "patients") as [patients|e]; [|reflexivity].
  destruct (negb (Array_isArray patients) || (length (elements patients) =? 0)%nat);
    [reflexivity|].
  destruct (10 <? length (elements patients))%nat; [reflexivity|].
  rewrite batch_loop_outcomes. reflexivity.
Qed.

(** C2.  For a batch of N items, 1 <= N <= 10, the handler answers 200 with
    N entries in input order: entry [i] carries [patient_index] [i] and is
    what the endpoint's answer to item [i] makes it, tagged [success] with
    the parsed result or [failed] with the error message.  Every item is
    sent to the endpoint, in order, whatever happened to the items before
    it; and the counts of successes and failures add up to N. *)
Theorem batch_outcomes env s body patients :
  getProp body "patients" = Ok (VArr patients) ->
  (1 <= length patients <= 10)%nat ->
  exists results s',
    predict_batch body env s = (Ok (batch_response env s' patients results), ticked s') /\
    length results = length patients /\
    (forall i p, patients !! i = Some p ->
       results !! i = Some (item_outcome env (length (calls s) + i) i p)) /\
    (forall i r, results !! i = Some r ->
       getProp r "patient_index" = Ok (num (Z.of_nat i)) /\
       (status_is "success" r = true \/ status_is "failed" r = true)) /\
    calls s' = (calls s ++ patients)%list /\
    (count_status "success" results + count_status "failed" results
     = length patients)%nat.
Proof.
  intros Hp [Hlo Hhi]. rewrite predict_batch_cases, Hp. cbn [Array_isArray elements negb orb].
  destruct patients as [|p0 rest] eqn:Hpat; [cbn in Hlo; lia|]. rewrite <- Hpat in *.
  replace (length patients =? 0)%nat with false by (symmetry; apply Nat.eqb_neq; lia).
  replace (10 <? length patients)%nat with false by (symmetry; apply Nat.ltb_ge; lia).
  exists (outcomes env (length (calls s)) 0 patients), (sent_all patients s).
  split; [reflexivity|]. split; [apply outcomes_length|]. split; [|split; [|split]].
  - intros i p Hi. now rewrite (outcomes_lookup env patients _ 0 i p Hi).
  - intros i r Hr.
    destruct (patients !! i) as [p|] eqn:Hi.
    + rewrite (outcomes_lookup env patients _ 0 i p Hi) in Hr. injection Hr as <-.
      destruct (item_outcome_status env (length (calls s) + i) (0 + i) p) as [Hidx Hst].
      split; [exact Hidx | tauto].
    + apply lookup_ge_None in Hi. apply lookup_lt_Some in Hr.
      rewrite outcomes_length in Hr. lia.
  - reflexivity.
  - apply count_status_outcomes.
Qed.

(** Three items, the endpoint failing on the second one. *)
Lemma batch_of_three_with_one_failure :
  exists results s',
    predict_batch (VObj (<["patients" := VArr [scenario; underage; scenario]]> ∅))
      (sample_env None failing_second) fresh
    = (Ok (batch_response (sample_env None failing_second) s'
             [scenario; underage; scenario] results), ticked s') /\
    length results = 3%nat /\
    calls s' = [scenario; underage; scenario] /\
    (count_status "success" results + count_status "failed" results = 3)%nat.
Proof.
  destruct (batch_outcomes (sample_env None failing_second) fresh
              (VObj (<["patients" := VArr [scenario; underage; scenario]]> ∅))
              [scenario; underage; scenario])
    as (results & s' & Hrun & Hlen & _ & _ & Hcalls & Hcount);
    [vm_compute; reflexivity | cbn; lia |].
  exists results, s'. repeat split; assumption.
Defined.

(** C4.  When [patients] is not an array or is empty the handler answers
    400 "Invalid batch data - expecting array of patients"; when it has
    more than ten items, 400 "Batch size limited to 10 patients"; in both
    cases without any call to the endpoint. *)
Theorem batch_shape_rejected env s body patients :
  getProp body "patients" = Ok patients ->
  Array_isArray patients = false \/ elements patients = [] \/
  (10 < length (elements patients))%nat ->
  exists text s',
    predict_batch body env s = (Ok (shape_response text (stamp_at env s)), s') /\
    calls s' = calls s /\
    (Array_isArray patients = false \/ elements patients = [] ->
       text = "Invalid batch data - expecting array of patients") /\
    (Array_isArray patients = true -> (10 < length (elements patients))%nat ->
       text = "Batch size limited to 10 patients").
Proof.
  intros Hp Hshape. rewrite predict_batch_cases, Hp.
  destruct (negb (Array_isArray patients) || (length (elements patients) =? 0)%nat) eqn:Hb.
  - eexists; eexists. split; [reflexivity|]. split; [reflexivity|].
    split; [reflexivity|]. intros Harr Hlen. rewrite Harr in Hb. cbn in Hb.
    apply Nat.eqb_eq in Hb. lia.
  - apply orb_false_elim in Hb as [Harr Hlen].
    apply negb_false_iff in Harr. apply Nat.eqb_neq in Hlen.
    assert (Hbig : (10 <? length (elements patients))%nat = true).
    { apply Nat.ltb_lt. destruct Hshape as [H|[H|H]]; [congruence | | exact H].
      rewrite H in Hlen. cbn in Hlen. lia. }
    rewrite Hbig. eexists; eexists. split; [reflexivity|]. split; [reflexivity|].
    split; [|reflexivity].
    intros [H|H]; [congruence | rewrite H in Hlen; cbn in Hlen; lia].
Qed.

(** The batch [{"patients": []}]. *)
Lemma empty_batch_rejected :
  exists text s',
    predict_batch (VObj (<["patients" := VArr []]> ∅)) (sample_env None always_low_risk) fresh
    = (Ok (shape_response text (VStr "T1700000000000")), s') /\
    calls s' = [] /\
    text = "Invalid batch data - expecting array of patients".
Proof.
  destruct (batch_shape_rejected (sample_env None always_low_risk) fresh
              (VObj (<["patients" := VArr []]> ∅)) (VArr []))
    as (text & s' & Hrun & Hcalls & Htext & _);
    [vm_compute; reflexivity | right; left; reflexivity |].
  exists text, s'. split; [exact Hrun|]. split; [exact Hcalls|].
  apply Htext. right. reflexivity.
Defined.

(** C8 fails on the code: the record with [Age: 15] is refused by the single
    route (400, endpoint not called) but forwarded to the endpoint by the
    batch route, which answers 200 and counts it as a success. *)
Theorem batch_forwards_unvalidated_record :
  (exists r s',
     predict_route underage (sample_env None always_low_risk) fresh = (Ok r, s') /\
     status r = 400 /\ calls s' = []) /\
  (exists r s',
     predict_batch (VObj (<["patients" := VArr [underage]]> ∅))
       (sample_env None always_low_risk) fresh = (Ok r, s') /\
     status r = 200 /\ calls s' = [underage] /\
     json r !! "successful_predictions" = Some (num 1)).
Proof.
  split.
  - eexists; eexists. split; [vm_compute; reflexivity|]. split; reflexivity.
  - rewrite predict_batch_cases. eexists; eexists. split; [reflexivity|].
    repeat split; reflexivity.
Qed.

(** * Further properties of the code *)

(** ** The health checks *)

(** X1.  [GET /endpoint-health] always answers and sends exactly one
    invocation, with the fixed test record.  When the invocation resolves,
    whatever its body (which is never parsed), the answer is 200 "healthy"
    with the time between the two clock readings around the call; when it
    rejects, the answer is 503 "unhealthy" with the failure's message. *)
Theorem endpoint_health_outcome env s :
  exists r s',
    endpoint_health env s = (Ok r, s') /\
    calls s' = (calls s ++ [testData])%list /\
    json r !! "endpoint" = Some (endpointName env) /\
    match endpoint env (length (calls s)) testData with
    | Resolves body =>
        status r = 200 /\
        json r !! "status" = Some (VStr "healthy") /\
        json r !! "response_time_ms"
          = Some (VNum (Num.of_elapsed (clock env (1 + ticks s)) (clock env (ticks s))))
    | Rejects e =>
        status r = 503 /\
        json r !! "status" = Some (VStr "unhealthy") /\
        json r !! "error" = Some (VStr (message e))
    end.
Proof.
  unfold endpoint_health, try_catch, bind, invokeEndpoint. cbn [Date_now calls ticks draws].
  destruct (endpoint env (length (calls s)) testData) as [b|e];
    (eexists; eexists; split; [reflexivity|]; split; [reflexivity|]; split; [reflexivity|]);
    repeat split; reflexivity.
Qed.

(** X2.  [testAWSConnection] never throws.  When listing the endpoints
    works it returns [true] without touching the inference endpoint;
    otherwise it sends the test record once and returns whether that
    invocation resolved. *)
Theorem connection_test_outcome listing env s :
  exists ok s',
    testAWSConnection listing env s = (Ok ok, s') /\
    match listing with
    | None => ok = true /\ s' = s
    | Some _ =>
        calls s' = (calls s ++ [testData])%list /\
        ok = match endpoint env (length (calls s)) testData with
             | Resolves _ => true
             | Rejects _ => false
             end
    end.
Proof.
  unfold testAWSConnection, try_catch, bind, invokeEndpoint.
  destruct listing as [e|]; [|eauto].
  destruct (endpoint env (length (calls s)) testData); eauto.
Qed.

(** ** Effects and edge cases of the routes *)

(** X3.  A batch request whose [req.body] is [undefined] or [null] is
    answered 500 "Batch prediction failed" with the message of the
    TypeError, without any call to the endpoint. *)
Theorem batch_unreadable_body env s body :
  unreadable body ->
  exists msg,
    predict_batch body env s
    = (Ok (mkResponse 500
             (<["error" := VStr "Batch prediction failed"]>
             (<["message" := VStr msg]>
             (<["timestamp" := stamp_at env s]> ∅)))), ticked s) /\
    calls (ticked s) = calls s.
Proof.
  intros [-> | ->]; eexists; split; reflexivity.
Qed.

Lemma batch_null_body :
  exists msg,
    predict_batch VNull (sample_env None always_low_risk) fresh
    = (Ok (mkResponse 500
             (<["error" := VStr "Batch prediction failed"]>
             (<["message" := VStr msg]>
             (<["timestamp" := VStr "T1700000000000"]> ∅)))), ticked fresh).
Proof.
  destruct (batch_unreadable_body (sample_env None always_low_risk) fresh VNull
              (or_intror eq_refl)) as (msg & H & _).
  exists msg. exact H.
Defined.

(** X4.  The validator never throws.  Either it answers, with status 400 or
    500 and the timestamp of the one clock reading it takes, or it calls
    [next()] and leaves the state as it found it; in neither case is the
    endpoint invoked. *)
Theorem validator_effects env s body :
  (exists r, validatePredictionInput body env s = (Ok (Responded r), ticked s) /\
             json r !! "timestamp" = Some (stamp_at env s) /\
             (status r = 400 \/ status r = 500))
  \/
  (exists body', validatePredictionInput body env s = (Ok (Next body'), s)).
Proof.
  rewrite validate_cases.
  destruct (missing_fields_of body) as [m|e]; [|left; eexists; repeat split; auto].
  destruct (0 <? length m)%nat; [left; eexists; repeat split; auto|].
  destruct (range_checks body) as [errs|e]; [|left; eexists; repeat split; auto].
  destruct (0 <? length errs)%nat; [left; eexists; repeat split; auto|].
  destruct (normalized body) as [b|e]; [right; eauto | left; eexists; repeat split; auto].
Qed.

(** X5.  When [req.body] is [undefined] or [null], reading the first field
    throws, and the validator answers 500 "Validation processing failed"
    with the message of the TypeError. *)
Theorem validator_unreadable_body env s body :
  unreadable body ->
  exists msg,
    validatePredictionInput body env s
    = (Ok (Responded (mkResponse 500
             (<["error" := VStr "Validation processing failed"]>
             (<["message" := VStr msg]>
             (<["timestamp" := stamp_at env s]> ∅))))), ticked s).
Proof.
  intros [-> | ->]; eexists; reflexivity.
Qed.

Lemma validator_undefined_body :
  exists msg,
    validatePredictionInput VUndefined (sample_env None always_low_risk) fresh
    = (Ok (Responded (mkResponse 500
             (<["error" := VStr "Validation processing failed"]>
             (<["message" := VStr msg]>
             (<["timestamp" := VStr "T1700000000000"]> ∅))))), ticked fresh).
Proof.
  exact (validator_unreadable_body (sample_env None always_low_risk) fresh VUndefined
           (or_introl eq_refl)).
Defined.

(** X6.  Every run of the handler of [POST /predict] answers and makes
    exactly one invocation of the endpoint, with the body it was given as
    payload, and draws one random suffix: no retry, whatever the outcome. *)
Theorem predict_calls_once env s body :
  exists r s',
    predict body env s = (Ok r, s') /\
    calls s' = (calls s ++ [body])%list /\
    draws s' = S (draws s).
Proof.
  rewrite predict_outcome.
  destruct (endpoint env (length (calls s)) body) as [b|e]; [|eauto].
  destruct (JSON_parse b) as [result|e]; [|eauto].
  destruct (getProp result "risk_level") as [x|e]; eauto.
Qed.

(** X7.  When validation passes, the route sends one invocation whose
    payload is the normalized record, not the body as received, and the
    answer carries the request id made at the handler's entry. *)
Theorem route_sends_normalized_record env s body body' :
  validatePredictionInput body env s = (Ok (Next body'), s) ->
  exists r s',
    predict_route body env s = (Ok r, s') /\
    calls s' = (calls s ++ [body'])%list /\
    normalized body = Ok body' /\
    json r !! "request_id" = Some (VStr (request_id_at env s)).
Proof.
  intros H. rewrite predict_route_cases, H.
  assert (Hn : normalized body = Ok body').
  { rewrite validate_cases in H.
    destruct (missing_fields_of body) as [m|e]; [|discriminate].
    destruct (0 <? length m)%nat; [discriminate|].
    destruct (range_checks body) as [errs|e]; [|discriminate].
    destruct (0 <? length errs)%nat; [discriminate|].
    destruct (normalized body) as [b|e]; [congruence | discriminate]. }
  rewrite predict_outcome.
  assert (Hid : forall result,
             json (enhanced env (entered s) (request_id_at env s) (clock env (ticks s)) result)
               !! "request_id" = Some (VStr (request_id_at env s))).
  { intros result. cbn [json enhanced]. repeat (rewrite lookup_insert_ne by discriminate).
    apply lookup_insert_eq. }
  destruct (endpoint env (length (calls s)) body') as [b|e];
    [destruct (JSON_parse b) as [result|e];
     [destruct (getProp result "risk_level") as [x|e]|]|];
    eexists; eexists;
    (split; [reflexivity|]); (split; [reflexivity|]); (split; [exact Hn|]);
    first [apply Hid | reflexivity].
Qed.

Lemma string_scenario_is_sent_as_numbers :
  exists r s',
    predict_route scenario_as_strings (sample_env None always_low_risk) fresh = (Ok r, s') /\
    calls s' = [scenario].
Proof.
  destruct (route_sends_normalized_record (sample_env None always_low_risk) fresh
              scenario_as_strings scenario) as (r & s' & Hrun & Hcalls & _);
    [vm_compute; reflexivity|].
  exists r, s'. split; [exact Hrun | exact Hcalls].
Defined.

(** X8.  When the endpoint resolves with the JSON text [null], reading
    [result.risk_level] throws inside the [try] block, and the handler
    answers 500 "Internal server error" (the TypeError's message in
    [details] under development). *)
Theorem null_result_is_internal_error env s body :
  endpoint env (length (calls s)) body = Resolves (JsonText VNull) ->
  exists r s',
    predict body env s = (Ok r, s') /\
    status r = 500 /\
    json r !! "error" = Some (VStr "Internal server error") /\
    json r !! "details"
      = Some (details_of (NODE_ENV env)
                (TypeError "Cannot read properties of null (reading 'risk_level')")).
Proof.
  intros H. rewrite predict_outcome, H. cbn [JSON_parse getProp].
  eexists; eexists. split; [reflexivity|]. repeat split; reflexivity.
Qed.

Lemma null_result_sample :
  exists r s',
    predict scenario (sample_env (Some "development") answers_null) fresh = (Ok r, s') /\
    status r = 500 /\
    json r !! "details"
      = Some (VStr "Cannot read properties of null (reading 'risk_level')").
Proof.
  destruct (null_result_is_internal_error (sample_env (Some "development") answers_null)
              fresh scenario eq_refl) as (r & s' & Hrun & Hst & _ & Hd).
  exists r, s'. split; [exact Hrun|]. split; [exact Hst | exact Hd].
Defined.

Lemma item_outcome_answers env k i p :
  status_is "success" (item_outcome env k i p) = answers_json env k p /\
  status_is "failed" (item_outcome env k i p) = negb (answers_json env k p).
Proof.
  unfold item_outcome, answers_json.
  destruct (endpoint env k p) as [[v|msg]|e]; split; reflexivity.
Qed.

Lemma outcomes_all_answered env remaining :
  forall k i,
    (forall j p, remaining !! j = Some p -> answers_json env (k + j) p = true) ->
    count_status "success" (outcomes env k i remaining) = length remaining /\
    count_status "failed" (outcomes env k i remaining) = 0%nat.
Proof.
  unfold count_status.
  induction remaining as [|p rest IH]; intros k i H; [split; reflexivity|].
  cbn [outcomes List.filter].
  destruct (item_outcome_answers env k i p) as [-> ->].
  rewrite <- (Nat.add_0_r k) at 1 2. rewrite (H 0%nat p eq_refl). cbn [negb length].
  destruct (IH (S k) (S i)) as [-> ->]; [|split; reflexivity].
  intros j q Hj. replace (S k + j)%nat with (k + S j)%nat by lia. apply (H (S j) q Hj).
Qed.

Lemma outcomes_one_unanswered env remaining :
  forall k i m,
    (m < length remaining)%nat ->
    (forall j p, remaining !! j = Some p ->
       answers_json env (k + j) p = negb (j =? m)%nat) ->
    count_status "success" (outcomes env k i remaining) = (length remaining - 1)%nat /\
    count_status "failed" (outcomes env k i remaining) = 1%nat.
Proof.
  induction remaining as [|p rest IH]; intros k i m Hm H; [cbn in Hm; lia|].
  unfold count_status in *. cbn [outcomes List.filter].
  destruct (item_outcome_answers env k i p) as [-> ->].
  rewrite <- (Nat.add_0_r k) at 1 2. rewrite (H 0%nat p eq_refl).
  destruct m as [|m]; cbn [Nat.eqb negb length].
  - destruct (outcomes_all_answered env rest (S k) (S i)) as [Hs Hf].
    + intros j q Hj. replace (S k + j)%nat with (k + S j)%nat by lia. now rewrite (H (S j) q Hj).
    + unfold count_status in Hs, Hf. rewrite Hs, Hf. split; lia.
  - destruct (IH (S k) (S i) m) as [-> ->]; [cbn in Hm; lia | |].
    + intros j q Hj. replace (S k + j)%nat with (k + S j)%nat by lia. now rewrite (H (S j) q Hj).
    + split; [cbn in Hm; lia | reflexivity].
Qed.

(** X9.  In a batch of at most ten items in which the endpoint answers
    every item with a JSON text except item [m], the answer is 200 with
    [failed_predictions] 1 and [successful_predictions] N - 1. *)
Theorem batch_with_one_failure env s body patients m :
  getProp body "patients" = Ok (VArr patients) ->
  (length patients <= 10)%nat ->
  (m < length patients)%nat ->
  (forall j p, patients !! j = Some p ->
     answers_json env (length (calls s) + j) p = negb (j =? m)%nat) ->
  exists r s',
    predict_batch body env s = (Ok r, s') /\
    status r = 200 /\
    json r !! "total_patients" = Some (num (Z.of_nat (length patients))) /\
    json r !! "successful_predictions" = Some (num (Z.of_nat (length patients - 1))) /\
    json r !! "failed_predictions" = Some (num 1).
Proof.
  intros Hp Hhi Hm Hans. rewrite predict_batch_cases, Hp.
  cbn [Array_isArray elements negb orb].
  replace (length patients =? 0)%nat with false by (symmetry; apply Nat.eqb_neq; lia).
  replace (10 <? length patients)%nat with false by (symmetry; apply Nat.ltb_ge; lia).
  destruct (outcomes_one_unanswered env patients (length (calls s)) 0 m Hm Hans) as [Hs Hf].
  eexists; eexists. split; [reflexivity|]. split; [reflexivity|].
  cbn [json batch_response]. rewrite Hs, Hf. repeat split; reflexivity.
Qed.

Lemma batch_second_of_three_fails :
  exists r s',
    predict_batch (VObj (<["patients" := VArr [scenario; underage; scenario]]> ∅))
      (sample_env None failing_second) fresh = (Ok r, s') /\
    json r !! "successful_predictions" = Some (num 2) /\
    json r !! "failed_predictions" = Some (num 1).
Proof.
  destruct (batch_with_one_failure (sample_env None failing_second) fresh
              (VObj (<["patients" := VArr [scenario; underage; scenario]]> ∅))
              [scenario; underage; scenario] 1%nat) as (r & s' & Hrun & _ & _ & Hs & Hf).
  - vm_compute; reflexivity.
  - cbn; lia.
  - cbn; lia.
  - intros [|[|[|j]]] p Hj; try discriminate Hj; reflexivity.
  - exists r, s'. split; [exact Hrun|]. split; [exact Hs | exact Hf].
Defined.

(** ** What the validator reads *)

Lemma filter_ext_in_result (p q : string -> result bool) fields :
  (forall f, In f fields -> p f = q f) ->
  filter_fields p fields = filter_fields q fields.
Proof.
  induction fields as [|f rest IH]; intros H; cbn; [reflexivity|].
  rewrite (H f (or_introl eq_refl)), IH by (intros; apply H; now right). reflexivity.
Qed.

Lemma alike_missing body1 body2 :
  alike body1 body2 -> missing_fields_of body1 = missing_fields_of body2.
Proof.
  intros H. apply filter_ext_in_result. intros f Hf.
  destruct (H f Hf) as (v1 & v2 & -> & -> & Hm & _). cbn. now rewrite Hm.
Qed.

Lemma alike_coerced body1 body2 field :
  alike body1 body2 -> In field requiredFields ->
  coerced body1 field = coerced body2 field.
Proof.
  intros H Hf. unfold coerced.
  destruct (H field Hf) as (v1 & v2 & -> & -> & _ & Hn). exact Hn.
Qed.

Lemma alike_run_checks body1 body2 rows :
  alike body1 body2 ->
  (forall f d m, In (f, d, m) rows -> In f requiredFields) ->
  forall errors, run_checks body1 rows errors = run_checks body2 rows errors.
Proof.
  intros H. induction rows as [|[[f d] m] rest IH]; intros Hrows errors; cbn; [reflexivity|].
  rewrite (alike_coerced body1 body2 f H) by (eapply Hrows; now left).
  apply rbind_ext; [reflexivity|]. intros e. apply IH. intros; eapply Hrows; right; eassumption.
Qed.

Lemma alike_Number_of body1 body2 field :
  alike body1 body2 -> In field requiredFields ->
  Number_of body1 field = Number_of body2 field.
Proof.
  intros H Hf. rewrite !Number_of_coerced. now rewrite (alike_coerced body1 body2 field H Hf).
Qed.

Lemma alike_normalized body1 body2 :
  alike body1 body2 -> normalized body1 = normalized body2.
Proof.
  intros H. unfold normalized.
  repeat (apply rbind_ext; [apply alike_Number_of; [exact H | cbn; tauto] | intros ?]).
  reflexivity.
Qed.

Lemma alike_validate env s body1 body2 :
  alike body1 body2 ->
  validatePredictionInput body1 env s = validatePredictionInput body2 env s.
Proof.
  intros H. rewrite !validate_cases.
  rewrite (alike_missing body1 body2 H), !range_checks_table.
  rewrite (alike_run_checks body1 body2 field_table H table_row_required).
  rewrite (alike_normalized body1 body2 H). reflexivity.
Qed.

(** X10.  The validator, and so the whole single-prediction route, depends
    on a body only through the ten required fields, and on each of them
    only through whether it is missing and what it converts to: two bodies
    alike in these are treated identically.  So a form that sends its
    numbers as strings is handled like one that sends numbers. *)
Theorem validator_reads_only_coercions env s body1 body2 :
  alike body1 body2 ->
  validatePredictionInput body1 env s = validatePredictionInput body2 env s /\
  predict_route body1 env s = predict_route body2 env s.
Proof.
  intros H. pose proof (alike_validate env s body1 body2 H) as Hv.
  split; [exact Hv|]. now rewrite !predict_route_cases, Hv.
Qed.

Lemma strings_alike_numbers : alike scenario_as_strings scenario.
Proof.
  intros f Hf. cbn in Hf.
  repeat (destruct Hf as [<-|Hf];
          [eexists; eexists; split; [vm_compute; reflexivity|];
           split; [vm_compute; reflexivity|]; split; vm_compute; reflexivity|]).
  destruct Hf.
Qed.

Lemma string_scenario_validates_like_numbers :
  validatePredictionInput scenario_as_strings (sample_env None always_low_risk) fresh
  = validatePredictionInput scenario (sample_env None always_low_risk) fresh.
Proof.
  exact (proj1 (validator_reads_only_coercions (sample_env None always_low_risk) fresh
                  scenario_as_strings scenario strings_alike_numbers)).
Defined.

(** X11.  A key that is not one of the ten required fields has no effect
    on validation: it is neither checked nor handed on. *)
Theorem extra_keys_are_ignored env s props key v :
  ~ In key requiredFields ->
  validatePredictionInput (VObj (<[key := v]> props)) env s
  = validatePredictionInput (VObj props) env s.
Proof.
  intros Hk. apply alike_validate. intros f Hf.
  exists (default VUndefined (props !! f)), (default VUndefined (props !! f)).
  split; [|repeat split].
  rewrite getProp_insert. destruct (decide (key = f)) as [->|_]; [contradiction | reflexivity].
Qed.

Lemma patient_name_is_ignored :
  validatePredictionInput (VObj (<["name" := VStr "Ada"]> (spread scenario)))
    (sample_env None always_low_risk) fresh
  = validatePredictionInput scenario (sample_env None always_low_risk) fresh.
Proof.
  apply (extra_keys_are_ignored (sample_env None always_low_risk) fresh (spread scenario)
           "name" (VStr "Ada")).
  cbn. intuition discriminate.
Defined.

Lemma drop_space_all s : all_space s -> StrNum.drop_space s = "".
Proof.
  induction s as [|c r IH]; intros H; [reflexivity|]. cbn.
  rewrite (H c (or_introl eq_refl)). apply IH. intros c' Hc'. apply H. now right.
Qed.

Lemma blank_is_zero s : all_space s -> StrNum.StringToNumber s = S754_zero false.
Proof.
  intros H. unfold StrNum.StringToNumber, StrNum.trim. now rewrite (drop_space_all s H).
Qed.

(** Replacing the value of one field in a body that passes. *)
Lemma replaced_field_passes env s props field d msg v :
  In (field, d, msg) field_table ->
  is_missing v = false ->
  passes env s (VObj props) ->
  (passes env s (VObj (<[field := v]> props))
   <-> exists n, ToNumber v = Ok n /\ in_domain d n = true).
Proof.
  intros Hrow Hv Hbase. apply passes_iff in Hbase as [Hall Hrows].
  rewrite passes_iff. split.
  - intros [_ H]. destruct (H _ _ _ Hrow) as (n & Hn & Hd). exists n.
    rewrite coerced_insert in Hn. destruct (decide (field = field)); [now split | congruence].
  - intros (n & Hn & Hd). split.
    + intros f Hf. unfold present. rewrite getProp_insert.
      destruct (decide (field = f)); [eauto | apply Hall, Hf].
    + intros f d' m Hin. rewrite coerced_insert.
      destruct (decide (field = f)) as [<-|Hne]; [|eauto].
      destruct (table_functional _ _ _ _ _ Hin Hrow) as [-> ->]. eauto.
Qed.

(** X12.  A non-empty string of white space is not missing (only the
    empty string is) and converts to 0: for a field whose domain contains
    0 (weekly activity and the two flags), an otherwise valid input passes
    with it and the field is handed on as 0. *)
Theorem blank_string_reads_as_zero env s props field d msg str :
  In (field, d, msg) field_table ->
  in_domain d (S754_zero false) = true ->
  str <> "" -> all_space str ->
  passes env s (VObj props) ->
  is_missing (VStr str) = false /\
  exists body',
    validatePredictionInput (VObj (<[field := VStr str]> props)) env s
      = (Ok (Next body'), s) /\
    getProp body' field = Ok (VNum (S754_zero false)).
Proof.
  intros Hrow Hzero Hne Hblank Hbase.
  assert (Hm : is_missing (VStr str) = false).
  { cbn. destruct (String.eqb_spec str ""); [contradiction | reflexivity]. }
  split; [exact Hm|].
  assert (Hp : passes env s (VObj (<[field := VStr str]> props))).
  { apply (replaced_field_passes env s props field d msg (VStr str) Hrow Hm Hbase).
    exists (S754_zero false). split; [cbn; now rewrite blank_is_zero | exact Hzero]. }
  destruct Hp as (body' & s' & Hv). exists body'.
  pose proof Hv as Hv'. rewrite validate_cases in Hv'.
  destruct (missing_fields_of _) as [m|e]; [|discriminate].
  destruct (0 <? length m)%nat; [discriminate|].
  destruct (range_checks _) as [errs|e]; [|discriminate].
  destruct (0 <? length errs)%nat; [discriminate|].
  destruct (normalized _) as [b|e] eqn:Hnorm; [|discriminate].
  injection Hv' as <- <-. split; [exact Hv|].
  apply normalized_Ok in Hnorm as (props' & -> & Hfields & _).
  destruct (Hfields field (table_row_required _ _ _ Hrow)) as (n' & Hc & Hl).
  rewrite coerced_insert in Hc. destruct (decide (field = field)); [|congruence].
  cbn in Hc. rewrite blank_is_zero in Hc by exact Hblank. injection Hc as <-.
  unfold getProp. rewrite Hl. reflexivity.
Qed.

Lemma blank_activity_is_zero :
  exists body',
    validatePredictionInput
      (VObj (<["Physical_Activity_Hours_Week" := VStr "   "]> (spread scenario)))
      (sample_env None always_low_risk) fresh = (Ok (Next body'), fresh) /\
    getProp body' "Physical_Activity_Hours_Week" = Ok (VNum (S754_zero false)).
Proof.
  refine (proj2 (blank_string_reads_as_zero (sample_env None always_low_risk) fresh
                   (spread scenario) "Physical_Activity_Hours_Week" (Between 0 50)
                   "Physical activity must be between 0 and 50 hours per week" "   "
                   _ _ _ _ (scenario_passes _ _))).
  - cbn; tauto.
  - vm_compute; reflexivity.
  - discriminate.
  - intros c Hc. cbn in Hc. repeat (destruct Hc as [<-|Hc]; [reflexivity|]). destruct Hc.
Defined.

Lemma in_domain_integers lo hi z :
  In (lo, hi) interval_rows ->
  -1000 <= z <= 1000 ->
  in_domain (Between lo hi) (Num.of_Z z) = ((lo <=? z) && (z <=? hi))%Z.
Proof.
  intros Hrow Hz.
  assert (Hall : forallb (fun row : Z * Z =>
                   forallb (fun z => Bool.eqb (in_domain (Between (fst row) (snd row)) (Num.of_Z z))
                                              ((fst row <=? z) && (z <=? snd row))%Z)
                           (integers_from (-1000) 2001)) interval_rows = true)
    by (vm_compute; reflexivity).
  rewrite forallb_forall in Hall. specialize (Hall (lo, hi) Hrow). cbn [fst snd] in Hall.
  rewrite forallb_forall in Hall. apply Bool.eqb_prop. apply Hall.
  clear -Hz. assert (Hgen : forall n lo0, lo0 <= z < lo0 + Z.of_nat n -> In z (integers_from lo0 n)).
  { induction n as [|n IH]; intros lo0 H; [lia|]. cbn [integers_from].
    destruct (Z.eq_dec lo0 z) as [->|Hne]; [now left | right; apply IH; lia]. }
  apply Hgen. lia.
Qed.

Lemma table_intervals field lo hi msg :
  In (field, Between lo hi, msg) field_table -> In (lo, hi) interval_rows.
Proof.
  intros H. cbn in H.
  repeat (destruct H as [H|H]; [try discriminate H; injection H as _ <- <- _; cbn; tauto|]).
  destruct H.
Qed.

(** X13.  Take an input that passes validation and replace one of its eight
    interval fields by the Number of an integer [z] between -1000 and 1000.
    The validator lets the new input through exactly when [z] lies in the
    closed interval of that field: both bounds of every range check are
    inclusive. *)
Theorem integer_bounds_are_inclusive env s props field lo hi msg z :
  In (field, Between lo hi, msg) field_table ->
  -1000 <= z <= 1000 ->
  passes env s (VObj props) ->
  (passes env s (VObj (<[field := num z]> props)) <-> lo <= z <= hi).
Proof.
  intros Hrow Hz Hbase.
  rewrite (replaced_field_passes env s props field (Between lo hi) msg (num z)
             Hrow eq_refl Hbase).
  pose proof (in_domain_integers lo hi z (table_intervals _ _ _ _ Hrow) Hz) as Hd.
  split.
  - intros (n & Hn & Hin). cbn in Hn. injection Hn as <-. rewrite Hd in Hin.
    apply andb_true_iff in Hin as [H1 H2]. apply Z.leb_le in H1, H2. lia.
  - intros [H1 H2]. exists (Num.of_Z z). split; [reflexivity|]. rewrite Hd.
    apply andb_true_iff. split; apply Z.leb_le; assumption.
Qed.

(** Ages 18 and 120 pass; 17 and 121 do not. *)
Lemma age_bounds_are_inclusive :
  passes (sample_env None always_low_risk) fresh
    (VObj (<["Age" := num 18]> (spread scenario))) /\
  passes (sample_env None always_low_risk) fresh
    (VObj (<["Age" := num 120]> (spread scenario))) /\
  ~ passes (sample_env None always_low_risk) fresh
      (VObj (<["Age" := num 17]> (spread scenario))) /\
  ~ passes (sample_env None always_low_risk) fresh
      (VObj (<["Age" := num 121]> (spread scenario))).
Proof.
  assert (Hrow : In ("Age", Between 18 120, "Age must be a number between 18 and 120")
                    field_table) by (cbn; tauto).
  pose proof (fun z Hz => integer_bounds_are_inclusive (sample_env None always_low_risk)
                            fresh (spread scenario) _ _ _ _ z Hrow Hz
                            (scenario_passes _ _)) as H.
  split; [|split; [|split]].
  - apply (H 18); lia.
  - apply (H 120); lia.
  - intros Hp. apply (H 17) in Hp; lia.
  - intros Hp. apply (H 121) in Hp; lia.
Defined.

(** X14.  When all ten fields are present and convert without raising, and
    at least one is out of range, the 400 answer lists the message of
    every field that is out of range, each once, in the order of the
    checks, and nothing else: the range checks do not stop at the first
    violation. *)
Theorem range_errors_are_complete env s body :
  all_present body -> coercible body ->
  violations body field_table <> [] ->
  validatePredictionInput body env s
    = (Ok (Responded (range_response (violations body field_table) (stamp_at env s))),
       ticked s) /\
  (forall msg, In msg (violations body field_table)
               <-> exists field, out_of_range body field msg).
Proof.
  intros Hall Hco Hne. split.
  - rewrite validate_cases.
    apply all_present_missing in Hall as (missing & -> & ->).
    rewrite range_checks_table, run_checks_coercible by (now apply coercible_rows).
    cbn [app length Nat.ltb Nat.leb].
    destruct (violations body field_table); [contradiction | reflexivity].
  - intros msg. rewrite in_violations. unfold out_of_range. split.
    + intros (f & d & n & H). exists f, d, n. exact H.
    + intros (f & d & n & H). exists f, d, n. exact H.
Qed.

Lemma three_faults_reported :
  validatePredictionInput three_faults (sample_env None always_low_risk) fresh
  = (Ok (Responded (range_response
           [ "Age must be a number between 18 and 120";
             "HbA1c must be between 3 and 20%";
             "Family_History_Diabetes must be 0 or 1" ]
           (VStr "T1700000000000"))), ticked fresh).
Proof.
  refine (proj1 (range_errors_are_complete (sample_env None always_low_risk) fresh
                   three_faults _ _ _)).
  - intros f Hf. each_field Hf; (eexists; split; [vm_compute; reflexivity | reflexivity]).
  - intros f Hf. each_field Hf; (eexists; vm_compute; reflexivity).
  - vm_compute. discriminate.
Defined.

(** X15.  When all ten fields are present and the conversion of one of
    them raises, the validator answers 500 "Validation processing failed",
    whatever range errors the other fields have, and the route ends there. *)
Theorem conversion_failure_is_500 env s body field e :
  all_present body ->
  In field requiredFields ->
  coerced body field = Throw e ->
  exists e',
    validatePredictionInput body env s
      = (Ok (Responded (failure_response e' (stamp_at env s))), ticked s) /\
    predict_route body env s = (Ok (failure_response e' (stamp_at env s)), ticked s).
Proof.
  intros Hall Hf Hthrow. rewrite predict_route_cases, validate_cases.
  apply all_present_missing in Hall as (missing & -> & ->). cbn.
  rewrite range_checks_table.
  destruct (run_checks body field_table []) as [errors|e'] eqn:Hr.
  - apply run_checks_Ok in Hr as [_ Hc]. exfalso.
    rewrite <- table_fields in Hf. apply in_map_iff in Hf as ([[f d] m] & <- & Hin).
    destruct (Hc _ _ _ Hin) as [n Hn]. cbn in Hthrow. congruence.
  - exists e'. split; reflexivity.
Qed.

Lemma opaque_bmi_is_500 :
  exists e',
    validatePredictionInput underage_opaque_bmi (sample_env None always_low_risk) fresh
      = (Ok (Responded (failure_response e' (VStr "T1700000000000"))), ticked fresh).
Proof.
  destruct (conversion_failure_is_500 (sample_env None always_low_risk) fresh
              underage_opaque_bmi "BMI" not_primitive) as (e' & Hv & _).
  - intros f Hf. each_field Hf; (eexists; split; [vm_compute; reflexivity | reflexivity]).
  - cbn; tauto.
  - vm_compute; reflexivity.
  - exists e'. exact Hv.
Defined.
